(** * A model of the notebook [idr0062_prediction_zarr_public_s3.ipynb]

    The notebook downloads an image and its curated label masks from a
    public S3 mirror of the Image Data Resource, runs a pretrained
    StarDist model over every z-plane and shows both segmentations side
    by side under a slider.

    Every substantive operation is a call into a third-party library
    (dask, zarr, numpy, csbdeep, stardist, matplotlib, ipywidgets) or
    into a remote service.  The outside world is therefore an oracle
    ([world]) that answers each call given the history of the run so
    far, and a run produces a log of the operations it performed
    together with the exception each one raised, if any.  The Python
    code itself (string formatting, indexing, the loop, the
    [try]/[except], the order of the cells) is written out.  The cell
    that installs the packages and the [import] statements are left
    out. *)

From Stdlib Require Import ZArith List String Ascii Bool Lia QArith DecimalString.
Import ListNotations.
Close Scope Q_scope.
Open Scope nat_scope.
Open Scope list_scope.

Notation "a +++ b" := (String.append a b) (at level 60, right associativity).

(** ** Python values, exceptions and results *)

(** The identifier and the resolution are either integers
    ([image_id = 6001247]) or strings ([resolution='0']). *)
Inductive pyval :=
| PyInt (z : Z)
| PyStr (s : string).

Definition str_int (z : Z) : string := NilZero.string_of_int (Z.to_int z).

(** Python's [str()] on the two kinds of value. *)
Definition str (v : pyval) : string :=
  match v with
  | PyInt z => str_int z
  | PyStr s => s
  end.

(** The exception classes that matter here.  The first three derive from
    [BaseException] only; all the others derive from [Exception]. *)
Inductive exn :=
| KeyboardInterrupt
| SystemExit
| GeneratorExit
| IndexError
| TypeError
| ValueError
| KeyError
| AttributeError
| OSError
| RuntimeError
| MemoryError
| TraitError
| OtherException (name : string).

Definition isinstance_Exception (e : exn) : bool :=
  match e with
  | KeyboardInterrupt | SystemExit | GeneratorExit => false
  | _ => true
  end.

Inductive result (A : Type) :=
| Ok (a : A)
| Raise (e : exn).
Arguments Ok {A} a.
Arguments Raise {A} e.

Definition outcome {A} (r : result A) : option exn :=
  match r with
  | Ok _ => None
  | Raise e => Some e
  end.

(** ** [fmt % args], restricted to the conversions [%s] and [%%] *)

Definition percent : ascii := "%"%char.
Definition letter_s : ascii := "s"%char.

Fixpoint percent_format (fmt : string) (args : list pyval) : result string :=
  match fmt with
  | EmptyString =>
      match args with
      | [] => Ok EmptyString
      | _ :: _ => Raise TypeError (* not all arguments converted *)
      end
  | String c rest =>
      if Ascii.eqb c percent then
        match rest with
        | EmptyString => Raise ValueError (* incomplete format *)
        | String k rest' =>
            if Ascii.eqb k letter_s then
              match args with
              | [] => Raise TypeError (* not enough arguments *)
              | a :: args' =>
                  match percent_format rest' args' with
                  | Ok out => Ok (str a +++ out)
                  | Raise e => Raise e
                  end
              end
            else if Ascii.eqb k percent then
              match percent_format rest' args with
              | Ok out => Ok (String percent out)
              | Raise e => Raise e
              end
            else Raise ValueError (* a conversion the notebook never uses *)
        end
      else
        match percent_format rest args with
        | Ok out => Ok (String c out)
        | Raise e => Raise e
        end
  end.

(** [str()] of a tuple of integers, as [print(data.shape)] shows it. *)
Fixpoint join_comma (l : list string) : string :=
  match l with
  | [] => EmptyString
  | [x] => x
  | x :: rest => x +++ ", " +++ join_comma rest
  end.

Definition str_tuple (t : list nat) : string :=
  match t with
  | [n] => "(" +++ str_int (Z.of_nat n) +++ ",)"
  | _ => "(" +++ join_comma (map (fun n => str_int (Z.of_nat n)) t) +++ ")"
  end.

(** ** Indexing, on shapes *)

Definition size_of (s : list nat) : nat := fold_right Nat.mul 1%nat s.

(** An integer index [i] on an axis of extent [n]: negative indices count
    from the end, anything outside [-n .. n-1] is an [IndexError]. *)
Definition wrap_index (i : Z) (n : nat) : option nat :=
  if ((0 <=? i) && (i <? Z.of_nat n))%Z then Some (Z.to_nat i)
  else if ((- Z.of_nat n <=? i) && (i <? 0))%Z then Some (Z.to_nat (i + Z.of_nat n))
  else None.

(** The notebook only indexes with leading integers followed by full
    slices, [a[i1, ..., ik, :, ..., :]].  [resolve_ints] checks the
    integers against the leading axes and returns their positions and the
    shape that is left. *)
Fixpoint resolve_ints (ints : list Z) (s : list nat) : result (list nat * list nat) :=
  match ints with
  | [] => Ok ([], s)
  | i :: rest =>
      match s with
      | [] => Raise IndexError (* too many indices *)
      | n :: s' =>
          match wrap_index i n with
          | None => Raise IndexError (* out of bounds *)
          | Some k =>
              match resolve_ints rest s' with
              | Ok (ks, s'') => Ok (k :: ks, s'')
              | Raise e => Raise e
              end
          end
      end
  end.

Definition resolve_index (ints : list Z) (nfull : nat) (s : list nat)
  : result (list nat * list nat) :=
  if (List.length ints + nfull <=? List.length s)%nat then resolve_ints ints s
  else Raise IndexError (* too many indices *).

(** ** Arrays *)

Section Model.

(** The numpy scalars stored in the arrays, whatever their dtype, and
    the second component of what [predict_instances] returns. *)
Variable scalar : Type.
Variable details : Type.

(** A materialised numpy array: a shape and the row-major buffer. *)
Record ndarray := mk_ndarray {
  shape : list nat;
  data_of : list scalar
}.

Definition well_formed (a : ndarray) : Prop :=
  List.length (data_of a) = size_of (shape a).

(** The sub-array at position [k] of the first axis. *)
Definition subarray (k : nat) (a : ndarray) : ndarray :=
  match shape a with
  | [] => a
  | _ :: s =>
      mk_ndarray s (firstn (size_of s) (skipn (k * size_of s) (data_of a)))
  end.

Definition getitem_ndarray (a : ndarray) (ints : list Z) (nfull : nat) : result ndarray :=
  match resolve_index ints nfull (shape a) with
  | Ok (ks, _) => Ok (fold_left (fun acc k => subarray k acc) ks a)
  | Raise e => Raise e
  end.

(** A lazy dask array over a Zarr store: the URL it was opened from, the
    shape found in the store's metadata, and the integer selections
    applied so far.  No chunk has been read. *)
Record dask_array := mk_dask {
  zarr_url : string;
  zarr_shape : list nat;
  selection : list nat
}.

Definition dask_shape (d : dask_array) : list nat :=
  skipn (List.length (selection d)) (zarr_shape d).

(** Indexing a dask array checks the bounds at once and stays lazy. *)
Definition getitem_dask (d : dask_array) (ints : list Z) (nfull : nat) : result dask_array :=
  match resolve_index ints nfull (dask_shape d) with
  | Ok (ks, _) => Ok (mk_dask (zarr_url d) (zarr_shape d) (selection d ++ ks))
  | Raise e => Raise e
  end.

(** What a Python variable holding an array refers to. *)
Inductive array_obj :=
| DaskArray (d : dask_array)
| NdArray (a : ndarray).

Definition is_lazy (x : array_obj) : bool :=
  match x with
  | DaskArray _ => true
  | NdArray _ => false
  end.

Definition shape_of (x : array_obj) : list nat :=
  match x with
  | DaskArray d => dask_shape d
  | NdArray a => shape a
  end.

Definition getitem_value (x : array_obj) (ints : list Z) (nfull : nat) : result array_obj :=
  match x with
  | DaskArray d =>
      match getitem_dask d ints nfull with
      | Ok d' => Ok (DaskArray d')
      | Raise e => Raise e
      end
  | NdArray a =>
      match getitem_ndarray a ints nfull with
      | Ok a' => Ok (NdArray a')
      | Raise e => Raise e
      end
  end.

(** [for im in x]: the sub-arrays along the first axis, in order. *)
Definition iter_value (x : array_obj) : result (list array_obj) :=
  match shape_of x with
  | [] => Raise TypeError (* iteration over a 0-d array *)
  | n :: _ =>
      Ok (map (fun k =>
                 match x with
                 | DaskArray d =>
                     DaskArray (mk_dask (zarr_url d) (zarr_shape d) (selection d ++ [k]))
                 | NdArray a => NdArray (subarray k a)
                 end) (seq 0 n))
  end.

Definition shape_eqb (s1 s2 : list nat) : bool :=
  if list_eq_dec Nat.eq_dec s1 s2 then true else false.

(** [numpy.array(l)] on a list of arrays: an empty list gives an empty
    1-d array, arrays of one shape are stacked along a new first axis,
    and arrays of different shapes are refused ([ValueError],
    inhomogeneous shape). *)
Definition stack (l : list ndarray) : result ndarray :=
  match l with
  | [] => Ok (mk_ndarray [0%nat] [])
  | a :: _ =>
      if forallb (fun b => shape_eqb (shape b) (shape a)) l
      then Ok (mk_ndarray (List.length l :: shape a) (List.concat (map data_of l)))
      else Raise ValueError
  end.

(** [t[k]] on a tuple. *)
Definition tuple_item (t : list nat) (k : nat) : result nat :=
  match nth_error t k with
  | Some n => Ok n
  | None => Raise IndexError
  end.

(** ** Library objects *)

Inductive model :=
| StarDist2D (key : string).

Record IntSlider := mk_IntSlider {
  slider_value : Z;
  slider_min : Z;
  slider_max : Z;
  slider_step : Z;
  slider_description : string;
  slider_continuous_update : bool
}.

(** The values a slider can hand to its callback. *)
Definition slider_admits (s : IntSlider) (z : Z) : Prop :=
  (slider_min s <= z <= slider_max s)%Z /\
  ((z - slider_min s) mod slider_step s = 0)%Z.

(** ** The log of a run *)

Inductive op :=
| op_percent_format (fmt : string) (args : list pyval)
| op_from_zarr (url : string)
| op_asarray (x : array_obj)
| op_ProgressBar_enter
| op_ProgressBar_exit
| op_print (line : string)
| op_from_pretrained (key : string)
| op_getitem (x : array_obj) (ints : list Z) (nfull : nat)
| op_normalize (x : array_obj) (pmin pmax : Q) (axis : list nat)
| op_iter (x : array_obj)
| op_predict_instances (m : option model) (im : array_obj)
| op_numpy_array (l : list ndarray)
| op_tuple_item (t : list nat) (k : nat)
| op_figure (width height : Z)
| op_subplot (code : Z)
| op_imshow (x : array_obj) (cmap : string) (alpha : option Q)
| op_tight_layout
| op_flush_events
| op_interact (slider : IntSlider).

(** One line of the log: the operation and the exception it raised. *)
Definition entry : Type := op * option exn.
Definition trace : Type := list entry.

Definition raised (en : entry) : option exn := snd en.

(** ** The outside world *)

Record world := mk_world {
  (* da.from_zarr: the shape in the store's metadata *)
  from_zarr_ : trace -> string -> result (list nat);
  (* forcing a lazy array: the chunks are fetched now *)
  compute_ : trace -> dask_array -> result ndarray;
  (* StarDist2D.from_pretrained: None when the key is unknown *)
  from_pretrained_ : trace -> string -> result (option model);
  (* csbdeep.utils.normalize *)
  normalize_ : trace -> array_obj -> Q -> Q -> list nat -> result array_obj;
  (* model.predict_instances *)
  predict_instances_ : trace -> model -> array_obj -> result (ndarray * details);
  (* matplotlib *)
  figure_ : trace -> Z -> Z -> result unit;
  subplot_ : trace -> Z -> result unit;
  imshow_ : trace -> array_obj -> string -> option Q -> result unit;
  tight_layout_ : trace -> result unit;
  flush_events_ : trace -> result unit;
  (* ipywidgets.interact *)
  interact_ : trace -> IntSlider -> result unit
}.

(** ** Computations: read the history, emit new log entries, return or raise *)

Definition M (A : Type) : Type := trace -> result A * trace.

Definition ret {A} (a : A) : M A := fun _ => (Ok a, []).

Definition bind {A B} (m : M A) (k : A -> M B) : M B :=
  fun h =>
    match m h with
    | (Ok a, n1) => let (r, n2) := k a (h ++ n1) in (r, n1 ++ n2)
    | (Raise e, n1) => (Raise e, n1)
    end.

(** An operation whose answer comes from the world. *)
Definition perform {A} (o : op) (answer : trace -> result A) : M A :=
  fun h => let r := answer h in (r, [(o, outcome r)]).

(** An operation the interpreter computes itself. *)
Definition evaluate {A} (o : op) (r : result A) : M A :=
  perform o (fun _ => r).

(** [try: body except Exception: handler] *)
Definition try_except_Exception {A} (body handler : M A) : M A :=
  fun h =>
    match body h with
    | (Ok a, n1) => (Ok a, n1)
    | (Raise e, n1) =>
        if isinstance_Exception e
        then let (r, n2) := handler (h ++ n1) in (r, n1 ++ n2)
        else (Raise e, n1)
    end.

(** [with ProgressBar(): body].  The callback is registered on entry and
    removed on exit; its [__exit__] returns nothing, so an exception of
    the body goes on after the exit. *)
Definition with_ProgressBar {A} (body : M A) : M A :=
  fun h =>
    let (r, n) := body (h ++ [(op_ProgressBar_enter, None)]) in
    (r, (op_ProgressBar_enter, None) :: n ++ [(op_ProgressBar_exit, None)]).

Notation "x <- m ;; k" := (bind m (fun x => k))
  (at level 61, m at next level, right associativity).
Notation "m ;; k" := (bind m (fun _ => k))
  (at level 61, right associativity).

(** ** The library calls, against a given world *)

Variable W : world.

Definition format (fmt : string) (args : list pyval) : M string :=
  evaluate (op_percent_format fmt args) (percent_format fmt args).

Definition from_zarr (url : string) : M dask_array :=
  perform (op_from_zarr url)
    (fun h =>
       match from_zarr_ W h url with
       | Ok s => Ok (mk_dask url s [])
       | Raise e => Raise e
       end).

(** [numpy.asarray]: a lazy array is computed, a numpy array is
    returned as it is. *)
Definition numpy_asarray (x : array_obj) : M ndarray :=
  perform (op_asarray x)
    (fun h =>
       match x with
       | DaskArray d => compute_ W h d
       | NdArray a => Ok a
       end).

Definition print (line : string) : M unit :=
  evaluate (op_print line) (Ok tt).

Definition from_pretrained (key : string) : M (option model) :=
  perform (op_from_pretrained key) (fun h => from_pretrained_ W h key).

Definition getitem (x : array_obj) (ints : list Z) (nfull : nat) : M array_obj :=
  evaluate (op_getitem x ints nfull) (getitem_value x ints nfull).

Definition normalize (x : array_obj) (pmin pmax : Q) (axis : list nat) : M array_obj :=
  perform (op_normalize x pmin pmax axis) (fun h => normalize_ W h x pmin pmax axis).

Definition iter (x : array_obj) : M (list array_obj) :=
  evaluate (op_iter x) (iter_value x).

(** A method call on [None] is an [AttributeError]. *)
Definition predict_instances (m : option model) (im : array_obj) : M (ndarray * details) :=
  perform (op_predict_instances m im)
    (fun h =>
       match m with
       | Some m' => predict_instances_ W h m' im
       | None => Raise AttributeError
       end).

Definition numpy_array (l : list ndarray) : M ndarray :=
  evaluate (op_numpy_array l) (stack l).

Definition shape_item (x : array_obj) (k : nat) : M nat :=
  evaluate (op_tuple_item (shape_of x) k) (tuple_item (shape_of x) k).

Definition plt_figure (width height : Z) : M unit :=
  perform (op_figure width height) (fun h => figure_ W h width height).

Definition plt_subplot (code : Z) : M unit :=
  perform (op_subplot code) (fun h => subplot_ W h code).

Definition plt_imshow (x : array_obj) (cmap : string) (alpha : option Q) : M unit :=
  perform (op_imshow x cmap alpha) (fun h => imshow_ W h x cmap alpha).

Definition plt_tight_layout : M unit :=
  perform op_tight_layout (tight_layout_ W).

Definition flush_events : M unit :=
  perform op_flush_events (flush_events_ W).

Definition interact (slider : IntSlider) : M unit :=
  perform (op_interact slider) (fun h => interact_ W h slider).

(** ** The notebook *)

Definition default_resolution : pyval := PyStr "0".

Definition load_binary_from_s3 (id resolution : pyval) : M array_obj :=
  let endpoint_url := "https://s3.embassy.ebi.ac.uk/"%string in
  root <- format "idr/zarr/v0.1/%s.zarr/%s/" [id; resolution] ;;
  with_ProgressBar
    (d <- from_zarr (endpoint_url +++ root) ;;
     a <- numpy_asarray (DaskArray d) ;;
     ret (NdArray a)).

Definition load_labels_from_s3 (id resolution : pyval) : M array_obj :=
  let endpoint_url := "https://s3.embassy.ebi.ac.uk/"%string in
  root <- format "idr/zarr/v0.1/%s.zarr/labels/%s/" [id; resolution] ;;
  d <- from_zarr (endpoint_url +++ root) ;;
  ret (DaskArray d).

(** The variables of the notebook once every cell has run. *)
Record globals := mk_globals {
  image_id : pyval;
  data : array_obj;
  labels : array_obj;
  model_versatile : option model;
  img : array_obj;
  results : list ndarray;
  label_slices : array_obj
}.

(** [image_id = 6001247] *)
Definition cell_image_id : M pyval := ret (PyInt 6001247).

(** [data = load_binary_from_s3(image_id); print(data.shape)] *)
Definition cell_load_binary (image_id : pyval) : M array_obj :=
  data <- load_binary_from_s3 image_id default_resolution ;;
  print (str_tuple (shape_of data)) ;;
  ret data.

(** [labels = load_labels_from_s3(image_id); print(labels.shape)] *)
Definition cell_load_labels (image_id : pyval) : M array_obj :=
  labels <- load_labels_from_s3 image_id default_resolution ;;
  print (str_tuple (shape_of labels)) ;;
  ret labels.

(** [model_versatile = StarDist2D.from_pretrained('2D_demo')] *)
Definition cell_load_model : M (option model) :=
  from_pretrained "2D_demo".

(** The body of [for im in img], with [results] as the accumulator. *)
Fixpoint predict_loop (m : option model) (planes : list array_obj)
    (results : list ndarray) : M (list ndarray) :=
  match planes with
  | [] => ret results
  | im :: rest =>
      r <- predict_instances m im ;;
      let new_labels := fst r in
      predict_loop m rest (results ++ [new_labels])
  end.

(** The prediction cell; it returns [img], [results] and [label_slices]. *)
Definition cell_predict (data : array_obj) (model_versatile : option model)
  : M (array_obj * list ndarray * array_obj) :=
  let axis_norm := [0; 1] in
  x <- getitem data [0; 0]%Z 3 ;;
  img <- normalize x 1%Q (499 # 5)%Q axis_norm ;;
  planes <- iter img ;;
  results <- predict_loop model_versatile planes [] ;;
  label_slices <- numpy_array results ;;
  ret (img, results, NdArray label_slices).

(** The callback of the slider.  It reads the variables of the notebook
    when it is called. *)
Definition update (g : globals) (z : Z) : M unit :=
  plt_figure 10 10 ;;
  plt_subplot 121 ;;
  plane <- getitem (data g) [0; 0; z]%Z 2 ;;
  plt_imshow plane "gray" None ;;
  try_except_Exception
    (curated <- getitem (labels g) [0; 0; z]%Z 2 ;;
     plt_imshow curated "jet" (Some (1 # 2)%Q))
    (print (str (PyInt z))) ;;
  plt_subplot 122 ;;
  plane <- getitem (data g) [0; 0; z]%Z 2 ;;
  plt_imshow plane "gray" None ;;
  predicted <- getitem (label_slices g) [z] 2 ;;
  plt_imshow predicted "jet" (Some (1 # 2)%Q) ;;
  plt_tight_layout ;;
  flush_events.

(** The statements of [update] that follow the [try] statement, on their
    own; [update] above is the whole function. *)
Definition update_after_try (g : globals) (z : Z) : M unit :=
  plt_subplot 122 ;;
  plane <- getitem (data g) [0; 0; z]%Z 2 ;;
  plt_imshow plane "gray" None ;;
  predicted <- getitem (label_slices g) [z] 2 ;;
  plt_imshow predicted "jet" (Some (1 # 2)%Q) ;;
  plt_tight_layout ;;
  flush_events.

(** The slider of the last cell, [max=data.shape[2]-1]. *)
Definition z_slider (n : nat) : IntSlider :=
  mk_IntSlider 0 0 (Z.of_nat n - 1) 1 "Select Z" false.

(** The last cell: the slider is built and handed to [interact], which
    shows the widget; the widget calls [update] afterwards. *)
Definition cell_compare (data : array_obj) : M unit :=
  n <- shape_item data 2 ;;
  interact (z_slider n).

(** The cells in the order of the notebook. *)
Definition notebook : M globals :=
  image_id <- cell_image_id ;;
  data <- cell_load_binary image_id ;;
  labels <- cell_load_labels image_id ;;
  model_versatile <- cell_load_model ;;
  p <- cell_predict data model_versatile ;;
  let '(img, results, label_slices) := p in
  cell_compare data ;;
  ret (mk_globals image_id data labels model_versatile img results label_slices).

End Model.

Arguments mk_ndarray {scalar} shape data_of.
Arguments shape {scalar} n.
Arguments data_of {scalar} n.
Arguments well_formed {scalar} a.
Arguments subarray {scalar} k a.
Arguments getitem_ndarray {scalar} a ints nfull.
Arguments DaskArray {scalar} d.
Arguments NdArray {scalar} a.
Arguments is_lazy {scalar} x.
Arguments shape_of {scalar} x.
Arguments getitem_value {scalar} x ints nfull.
Arguments iter_value {scalar} x.
Arguments stack {scalar} l.
Arguments op_percent_format {scalar} fmt args.
Arguments op_from_zarr {scalar} url.
Arguments op_asarray {scalar} x.
Arguments op_ProgressBar_enter {scalar}.
Arguments op_ProgressBar_exit {scalar}.
Arguments op_print {scalar} line.
Arguments op_from_pretrained {scalar} key.
Arguments op_getitem {scalar} x ints nfull.
Arguments op_normalize {scalar} x pmin pmax axis.
Arguments op_iter {scalar} x.
Arguments op_predict_instances {scalar} m im.
Arguments op_numpy_array {scalar} l.
Arguments op_tuple_item {scalar} t k.
Arguments op_figure {scalar} width height.
Arguments op_subplot {scalar} code.
Arguments op_imshow {scalar} x cmap alpha.
Arguments op_tight_layout {scalar}.
Arguments op_flush_events {scalar}.
Arguments op_interact {scalar} slider.
Arguments raised {scalar} en.
Arguments mk_world {scalar details}.
Arguments from_zarr_ {scalar details} w h url.
Arguments compute_ {scalar details} w h d.
Arguments from_pretrained_ {scalar details} w h key.
Arguments normalize_ {scalar details} w h x pmin pmax axis.
Arguments predict_instances_ {scalar details} w h m im.
Arguments figure_ {scalar details} w h width height.
Arguments subplot_ {scalar details} w h code.
Arguments imshow_ {scalar details} w h x cmap alpha.
Arguments tight_layout_ {scalar details} w h.
Arguments flush_events_ {scalar details} w h.
Arguments interact_ {scalar details} w h slider.
Arguments ret {scalar A} a h.
Arguments bind {scalar A B} m k h.
Arguments perform {scalar A} o answer h.
Arguments evaluate {scalar A} o r h.
Arguments try_except_Exception {scalar A} body handler h.
Arguments with_ProgressBar {scalar A} body h.
Arguments format {scalar} fmt args h.
Arguments from_zarr {scalar details} W url h.
Arguments numpy_asarray {scalar details} W x h.
Arguments print {scalar} line h.
Arguments from_pretrained {scalar details} W key h.
Arguments getitem {scalar} x ints nfull h.
Arguments normalize {scalar details} W x pmin pmax axis h.
Arguments iter {scalar} x h.
Arguments predict_instances {scalar details} W m im h.
Arguments numpy_array {scalar} l h.
Arguments shape_item {scalar} x k h.
Arguments plt_figure {scalar details} W width height h.
Arguments plt_subplot {scalar details} W code h.
Arguments plt_imshow {scalar details} W x cmap alpha h.
Arguments plt_tight_layout {scalar details} W h.
Arguments flush_events {scalar details} W h.
Arguments interact {scalar details} W slider h.
Arguments load_binary_from_s3 {scalar details} W id resolution h.
Arguments load_labels_from_s3 {scalar details} W id resolution h.
Arguments mk_globals {scalar}.
Arguments image_id {scalar} g.
Arguments data {scalar} g.
Arguments labels {scalar} g.
Arguments model_versatile {scalar} g.
Arguments img {scalar} g.
Arguments results {scalar} g.
Arguments label_slices {scalar} g.
Arguments cell_image_id {scalar} h.
Arguments cell_load_binary {scalar details} W image_id h.
Arguments cell_load_labels {scalar details} W image_id h.
Arguments cell_load_model {scalar details} W h.
Arguments predict_loop {scalar details} W m planes results h.
Arguments cell_predict {scalar details} W data model_versatile h.
Arguments update {scalar details} W g z h.
Arguments update_after_try {scalar details} W g z h.
Arguments cell_compare {scalar details} W data h.
Arguments notebook {scalar details} W h.

(** The two URL templates of the storage layout, as the specification
    words them: the endpoint, then [idr/zarr/v0.1/<id>.zarr/], then
    either [<resolution>/] or [labels/<resolution>/]. *)
Definition zarr_root_url (id : string) : string :=
  "https://s3.embassy.ebi.ac.uk/" +++ "idr/zarr/v0.1/" +++ id +++ ".zarr/".

Definition image_url (id resolution : string) : string :=
  zarr_root_url id +++ resolution +++ "/".

Definition labels_url (id resolution : string) : string :=
  zarr_root_url id +++ "labels/" +++ resolution +++ "/".

(** ** Reading the log *)

Section Log.

Variable scalar : Type.
Variable details : Type.

(** The URLs handed to [da.from_zarr], in order. *)
Definition urls_opened (t : trace scalar) : list string :=
  flat_map (fun en => match fst en with
                      | op_from_zarr url => [url]
                      | _ => []
                      end) t.

(** The arrays handed to [numpy.asarray], in order. *)
Definition arrays_computed (t : trace scalar) : list (array_obj scalar) :=
  flat_map (fun en => match fst en with
                      | op_asarray x => [x]
                      | _ => []
                      end) t.

(** The calls of [predict_instances], in order. *)
Definition predict_calls (t : trace scalar) : list (option model * array_obj scalar) :=
  flat_map (fun en => match fst en with
                      | op_predict_instances m im => [(m, im)]
                      | _ => []
                      end) t.

(** The steps of the notebook that reach a service or a model. *)
Inductive step :=
| Fetch (url : string)
| Load_model (key : string)
| Predict (im : array_obj scalar)
| Display (slider : IntSlider).

Definition step_of (o : op scalar) : list step :=
  match o with
  | op_from_zarr url => [Fetch url]
  | op_from_pretrained key => [Load_model key]
  | op_predict_instances _ im => [Predict im]
  | op_interact slider => [Display slider]
  | _ => []
  end.

Definition steps (t : trace scalar) : list step :=
  flat_map (fun en => step_of (fst en)) t.

(** The steps of a complete run, for the identifier [id], the planes
    [planes] of the normalised image and an image of [nz] z-planes. *)
Definition plan (id : pyval) (planes : list (array_obj scalar)) (nz : nat) : list step :=
  [Fetch (image_url (str id) "0"); Fetch (labels_url (str id) "0"); Load_model "2D_demo"]
  ++ map Predict planes
  ++ [Display (z_slider nz)].

(** A log and a result in which no exception was handled: nothing
    raised and the computation returned, or exactly one operation
    raised, the computation raised the same exception, and only the
    exit of the progress bar came after it. *)
Definition no_raise (en : entry scalar) : Prop := raised en = None.

Definition cleanup (en : entry scalar) : Prop := en = (op_ProgressBar_exit, None).

Definition propagates {A} (r : result A) (n : trace scalar) : Prop :=
  match r with
  | Ok _ => Forall no_raise n
  | Raise e =>
      exists pre o post,
        n = pre ++ (o, Some e) :: post /\ Forall no_raise pre /\ Forall cleanup post
  end.

Definition no_handler {A} (m : M scalar A) : Prop :=
  forall h, propagates (fst (m h)) (snd (m h)).

(** What the libraries document about shapes: [normalize] works
    element by element, and [predict_instances] returns a label image of
    the shape of its input. *)
Definition normalize_keeps_shape (W : world scalar details) : Prop :=
  forall h x pmin pmax axis y,
    normalize_ W h x pmin pmax axis = Ok y -> shape_of y = shape_of x.

Definition predict_keeps_shape (W : world scalar details) : Prop :=
  forall h m im lab d,
    predict_instances_ W h m im = Ok (lab, d) -> shape lab = shape_of im.

(** The lines written by [print], in order. *)
Definition printed (t : trace scalar) : list string :=
  flat_map (fun en => match fst en with
                      | op_print line => [line]
                      | _ => []
                      end) t.

(** The operations of the progress bar. *)
Definition is_ProgressBar_op (o : op scalar) : bool :=
  match o with
  | op_ProgressBar_enter | op_ProgressBar_exit => true
  | _ => false
  end.

(** A matplotlib that draws: the figure calls return, and [imshow]
    returns on every numpy array. *)
Definition draws_numpy_arrays (W : world scalar details) : Prop :=
  (forall h width height, figure_ W h width height = Ok tt)
  /\ (forall h code, subplot_ W h code = Ok tt)
  /\ (forall h x cmap alpha, is_lazy x = false -> imshow_ W h x cmap alpha = Ok tt)
  /\ (forall h, tight_layout_ W h = Ok tt)
  /\ (forall h, flush_events_ W h = Ok tt).

(** Whatever [imshow] raises derives from [Exception]: nobody interrupts
    the kernel or exits while a lazy plane is read. *)
Definition imshow_raises_Exception_only (W : world scalar details) : Prop :=
  forall h x cmap alpha e,
    imshow_ W h x cmap alpha = Raise e -> isinstance_Exception e = true.

End Log.

Arguments urls_opened {scalar} t.
Arguments arrays_computed {scalar} t.
Arguments predict_calls {scalar} t.
Arguments Fetch {scalar} url.
Arguments Load_model {scalar} key.
Arguments Predict {scalar} im.
Arguments Display {scalar} slider.
Arguments step_of {scalar} o.
Arguments steps {scalar} t.
Arguments plan {scalar} id planes nz.
Arguments no_raise {scalar} en.
Arguments cleanup {scalar} en.
Arguments propagates {scalar A} r n.
Arguments no_handler {scalar A} m.
Arguments normalize_keeps_shape {scalar details} W.
Arguments predict_keeps_shape {scalar details} W.
Arguments printed {scalar} t.
Arguments is_ProgressBar_op {scalar} o.
Arguments draws_numpy_arrays {scalar details} W.
Arguments imshow_raises_Exception_only {scalar details} W.

(** The last three extents of a shape: z, y and x. *)
Definition zyx (s : list nat) : list nat := skipn (List.length s - 3) s.

(** ** Small worlds to run the notebook in *)

Module Demo.

(** An array of shape [s] filled with [v]. *)
Definition full (s : list nat) (v : Z) : ndarray Z :=
  mk_ndarray s (repeat v (size_of s)).

Definition is_labels_url (url : string) : bool :=
  String.eqb url (labels_url "6001247" "0").

(** A store with an image of shape [image_shape] and labels of shape
    [labels_shape]; a [normalize] that returns its argument; a model that
    labels every pixel of a plane with the number of operations done
    before the call; plotting that answers as [show] says. *)
Definition demo (image_shape labels_shape : list nat)
    (show : array_obj Z -> string -> result unit) : world Z unit :=
  mk_world
    (fun _ url => Ok (if is_labels_url url then labels_shape else image_shape))
    (fun _ d => Ok (full (dask_shape d) 7))
    (fun _ key => Ok (Some (StarDist2D key)))
    (fun _ x _ _ _ => Ok x)
    (fun h _ im => Ok (full (shape_of im) (Z.of_nat (List.length h)), tt))
    (fun _ _ _ => Ok tt)
    (fun _ _ => Ok tt)
    (fun _ x cmap _ => show x cmap)
    (fun _ => Ok tt)
    (fun _ => Ok tt)
    (fun _ _ => Ok tt).

Definition shows_all : array_obj Z -> string -> result unit :=
  fun _ _ => Ok tt.

(** Reading a lazy plane fails with [e]; everything else is shown. *)
Definition lazy_read_fails (e : exn) : array_obj Z -> string -> result unit :=
  fun x _ => if is_lazy x then Raise e else Ok tt.

(** The coloured overlay of a numpy array fails with [e]. *)
Definition overlay_fails (e : exn) : array_obj Z -> string -> result unit :=
  fun x cmap => if negb (is_lazy x) && String.eqb cmap "jet" then Raise e else Ok tt.

(** A two-channel image of two planes of 2x3 pixels, and labels aligned
    with it. *)
Definition aligned : world Z unit :=
  demo [1; 2; 2; 2; 3] [1; 1; 2; 2; 3] shows_all.

(** The same image, and labels of three planes of 4x5 pixels. *)
Definition misaligned : world Z unit :=
  demo [1; 2; 2; 2; 3] [1; 1; 3; 4; 5] shows_all.

(** An image without any z-plane. *)
Definition no_planes : world Z unit :=
  demo [1; 2; 0; 2; 3] [1; 1; 0; 2; 3] shows_all.

(** The curated plane cannot be read: a missing chunk, an interrupt. *)
Definition plane_absent : world Z unit :=
  demo [1; 2; 2; 2; 3] [1; 1; 2; 2; 3] (lazy_read_fails KeyError).

Definition interrupted : world Z unit :=
  demo [1; 2; 2; 2; 3] [1; 1; 2; 2; 3] (lazy_read_fails KeyboardInterrupt).

(** The predicted overlay cannot be drawn. *)
Definition overlay_broken : world Z unit :=
  demo [1; 2; 2; 2; 3] [1; 1; 2; 2; 3] (overlay_fails ValueError).

(** The model answers one call and runs out of memory on the next: it
    fails whenever the operation before the call was a call of its own. *)
Definition second_plane_fails : world Z unit :=
  mk_world
    (fun _ url => Ok (if is_labels_url url then [1; 1; 3; 2; 3] else [1; 2; 3; 2; 3]))
    (fun _ d => Ok (full (dask_shape d) 7))
    (fun _ key => Ok (Some (StarDist2D key)))
    (fun _ x _ _ _ => Ok x)
    (fun h _ im =>
       match rev h with
       | (op_predict_instances _ _, _) :: _ => Raise MemoryError
       | _ => Ok (full (shape_of im) (Z.of_nat (List.length h)), tt)
       end)
    (fun _ _ _ => Ok tt)
    (fun _ _ => Ok tt)
    (fun _ _ _ _ => Ok tt)
    (fun _ => Ok tt)
    (fun _ => Ok tt)
    (fun _ _ => Ok tt).

(** The object store cannot be reached. *)
Definition offline : world Z unit :=
  mk_world
    (fun _ _ => Raise OSError)
    (fun _ d => Ok (full (dask_shape d) 7))
    (fun _ key => Ok (Some (StarDist2D key)))
    (fun _ x _ _ _ => Ok x)
    (fun h _ im => Ok (full (shape_of im) (Z.of_nat (List.length h)), tt))
    (fun _ _ _ => Ok tt)
    (fun _ _ => Ok tt)
    (fun _ _ _ _ => Ok tt)
    (fun _ => Ok tt)
    (fun _ => Ok tt)
    (fun _ _ => Ok tt).

(** The variables of the notebook after a run in [aligned]. *)
Definition the_data : array_obj Z := NdArray (full [1; 2; 2; 2; 3] 7).

Definition the_labels : array_obj Z :=
  DaskArray (mk_dask (labels_url "6001247" "0") [1; 1; 2; 2; 3] []).

Definition the_model : option model := Some (StarDist2D "2D_demo").

Definition the_img : array_obj Z := NdArray (full [2; 2; 3] 7).

Definition the_results : list (ndarray Z) := [full [2; 3] 13; full [2; 3] 14].

Definition the_label_slices : array_obj Z :=
  NdArray (mk_ndarray [2; 2; 3] (repeat 13%Z 6 ++ repeat 14%Z 6)).

Definition the_globals : globals Z :=
  mk_globals (PyInt 6001247) the_data the_labels the_model the_img the_results
    the_label_slices.

(** The same after a run in [misaligned]. *)
Definition misaligned_labels : array_obj Z :=
  DaskArray (mk_dask (labels_url "6001247" "0") [1; 1; 3; 4; 5] []).

Definition misaligned_globals : globals Z :=
  mk_globals (PyInt 6001247) the_data misaligned_labels the_model the_img
    the_results the_label_slices.

(** The curated plane [z], still lazy. *)
Definition curated_plane (z : nat) : array_obj Z :=
  DaskArray (mk_dask (labels_url "6001247" "0") [1; 1; 2; 2; 3] [0; 0; z]).

End Demo.

(** * Properties *)

Section Properties.

Variable scalar : Type.
Variable details : Type.
Variable W : world scalar details.

(** ** Strings *)

Lemma append_assoc (a b c : string) : (a +++ b) +++ c = a +++ b +++ c.
Proof.
  induction a as [|ch a IH]; simpl; [reflexivity | now rewrite IH].
Qed.

Lemma format_image_root (id r : pyval) :
  percent_format "idr/zarr/v0.1/%s.zarr/%s/" [id; r]
  = Ok ("idr/zarr/v0.1/" +++ str id +++ ".zarr/" +++ str r +++ "/").
Proof. reflexivity. Qed.

Lemma format_labels_root (id r : pyval) :
  percent_format "idr/zarr/v0.1/%s.zarr/labels/%s/" [id; r]
  = Ok ("idr/zarr/v0.1/" +++ str id +++ ".zarr/labels/" +++ str r +++ "/").
Proof. reflexivity. Qed.

Lemma image_url_eq (id r : string) :
  image_url id r
  = "https://s3.embassy.ebi.ac.uk/" +++ "idr/zarr/v0.1/" +++ id +++ ".zarr/" +++ r +++ "/".
Proof.
  unfold image_url, zarr_root_url. simpl. now rewrite !append_assoc.
Qed.

Lemma labels_url_eq (id r : string) :
  labels_url id r
  = "https://s3.embassy.ebi.ac.uk/" +++ "idr/zarr/v0.1/" +++ id +++ ".zarr/labels/" +++ r +++ "/".
Proof.
  unfold labels_url, zarr_root_url. simpl. now rewrite !append_assoc.
Qed.

(** ** Stepping through a computation *)

Lemma bind_perform {A B} (o : op scalar) (ans : trace scalar -> result A)
    (k : A -> M scalar B) (h : trace scalar) :
  bind (perform o ans) k h
  = match ans h with
    | Ok a => let (r, n) := k a (h ++ [(o, None)]) in (r, (o, None) :: n)
    | Raise e => (Raise e, [(o, Some e)])
    end.
Proof.
  unfold bind, perform. destruct (ans h); reflexivity.
Qed.

Lemma perform_run {A} (o : op scalar) (ans : trace scalar -> result A) (h : trace scalar) :
  perform o ans h
  = match ans h with
    | Ok a => (Ok a, [(o, None)])
    | Raise e => (Raise e, [(o, Some e)])
    end.
Proof.
  unfold perform. destruct (ans h); reflexivity.
Qed.

Lemma bind_ret {A B} (a : A) (k : A -> M scalar B) (h : trace scalar) :
  bind (ret a) k h = k a h.
Proof.
  unfold bind, ret. rewrite app_nil_r. simpl. now destruct (k a h).
Qed.

Lemma bind_try {A B} (body handler : M scalar A) (k : A -> M scalar B) (h : trace scalar) :
  bind (try_except_Exception body handler) k h
  = match body h with
    | (Ok a, n1) => let (r, n2) := k a (h ++ n1) in (r, n1 ++ n2)
    | (Raise e, n1) =>
        if isinstance_Exception e
        then let (r, n2) := bind handler k (h ++ n1) in (r, n1 ++ n2)
        else (Raise e, n1)
    end.
Proof.
  unfold bind, try_except_Exception.
  destruct (body h) as [[a|e] n1]; [reflexivity|].
  destruct (isinstance_Exception e); [|reflexivity].
  destruct (handler (h ++ n1)) as [[a|e'] n2]; [|reflexivity].
  rewrite <- app_assoc. destruct (k a (h ++ n1 ++ n2)) as [r n3].
  now rewrite app_assoc.
Qed.

Lemma bind_Ok_inv {A B} (m : M scalar A) (k : A -> M scalar B) h b n :
  bind m k h = (Ok b, n) ->
  exists a n1 n2, m h = (Ok a, n1) /\ k a (h ++ n1) = (Ok b, n2) /\ n = n1 ++ n2.
Proof.
  unfold bind. destruct (m h) as [[a|e] n1]; [|discriminate].
  destruct (k a (h ++ n1)) as [r n2] eqn:E. intros [= -> <-].
  now exists a, n1, n2.
Qed.

Lemma perform_Ok_inv {A} (o : op scalar) (ans : trace scalar -> result A) h a n :
  perform o ans h = (Ok a, n) -> ans h = Ok a /\ n = [(o, None)].
Proof.
  rewrite perform_run. destruct (ans h); intros [= <- <-]; auto.
Qed.

Ltac unfold_calls :=
  unfold format, from_zarr, numpy_asarray, print, from_pretrained, getitem,
    normalize, iter, predict_instances, numpy_array, shape_item, plt_figure,
    plt_subplot, plt_imshow, plt_tight_layout, flush_events, interact, evaluate.

Ltac case_result :=
  match goal with
  | |- context [match ?x with Ok _ => _ | Raise _ => _ end] =>
      lazymatch x with
      | context [match _ with Ok _ => _ | Raise _ => _ end] => fail
      | _ => destruct x eqn:?
      end
  end.

Ltac step :=
  first [ rewrite bind_perform | rewrite bind_try | rewrite bind_ret
        | rewrite perform_run ];
  cbv beta; try case_result; cbv beta iota.

(** ** The two fetch helpers, run *)

Lemma load_binary_run (id r : pyval) (h : trace scalar) :
  let url := image_url (str id) (str r) in
  let fmt := (op_percent_format "idr/zarr/v0.1/%s.zarr/%s/" [id; r], None) in
  let enter := (op_ProgressBar_enter, None) in
  let leave := (op_ProgressBar_exit, None) in
  load_binary_from_s3 W id r h
  = match from_zarr_ W (h ++ [fmt; enter]) url with
    | Raise e => (Raise e, [fmt; enter; (op_from_zarr url, Some e); leave])
    | Ok s =>
        let d := mk_dask url s [] in
        match compute_ W (h ++ [fmt; enter; (op_from_zarr url, None)]) d with
        | Raise e =>
            (Raise e, [fmt; enter; (op_from_zarr url, None);
                       (op_asarray (DaskArray d), Some e); leave])
        | Ok a =>
            (Ok (NdArray a), [fmt; enter; (op_from_zarr url, None);
                              (op_asarray (DaskArray d), None); leave])
        end
    end.
Proof.
  intros url fmt enter leave. subst url. rewrite image_url_eq.
  unfold load_binary_from_s3, with_ProgressBar. unfold_calls.
  rewrite bind_perform, format_image_root. rewrite bind_perform. cbv beta.
  rewrite <- !app_assoc. cbn [app].
  destruct (from_zarr_ W _ _) as [s|e]; [|reflexivity].
  rewrite bind_perform. rewrite <- !app_assoc. cbn [app].
  destruct (compute_ W _ _) as [a|e]; reflexivity.
Qed.

Lemma load_labels_run (id r : pyval) (h : trace scalar) :
  let url := labels_url (str id) (str r) in
  let fmt := (op_percent_format "idr/zarr/v0.1/%s.zarr/labels/%s/" [id; r], None) in
  load_labels_from_s3 W id r h
  = match from_zarr_ W (h ++ [fmt]) url with
    | Raise e => (Raise e, [fmt; (op_from_zarr url, Some e)])
    | Ok s =>
        (Ok (DaskArray (mk_dask url s [])), [fmt; (op_from_zarr url, None)])
    end.
Proof.
  intros url fmt. subst url. rewrite labels_url_eq.
  unfold load_labels_from_s3. unfold_calls.
  rewrite bind_perform, format_labels_root. rewrite bind_perform. cbv beta.
  destruct (from_zarr_ W _ _) as [s|e]; reflexivity.
Qed.

(** C1. For every identifier and resolution, [load_binary_from_s3] opens
    exactly one URL, the endpoint ['https://s3.embassy.ebi.ac.uk/']
    followed by ['idr/zarr/v0.1/<id>.zarr/<r>/'] with [str(id)] and
    [str(r)] put in as text, and the only array it computes is the one
    opened from that URL. *)
Theorem load_binary_from_s3_reads_image_url (id r : pyval) (h : trace scalar) :
  let url := "https://s3.embassy.ebi.ac.uk/" +++
             "idr/zarr/v0.1/" +++ str id +++ ".zarr/" +++ str r +++ "/" in
  urls_opened (snd (load_binary_from_s3 W id r h)) = [url]
  /\ Forall (fun x => exists s, x = DaskArray (mk_dask url s []))
        (arrays_computed (snd (load_binary_from_s3 W id r h))).
Proof.
  intros url. subst url. rewrite <- image_url_eq.
  pose proof (load_binary_run id r h) as E. cbv zeta in E. rewrite E. clear E.
  destruct (from_zarr_ W _ _) as [s|e]; [|split; [reflexivity | constructor]].
  destruct (compute_ W _ _) as [a|e]; cbn; (split; [reflexivity|]);
    repeat constructor; now exists s.
Qed.

(** C2. For every identifier and resolution, [load_labels_from_s3] opens
    exactly one URL, ['<endpoint>idr/zarr/v0.1/<id>.zarr/labels/<r>/']:
    the path of the image up to ['<id>.zarr/'], which the image fetch
    continues with ['<r>/'], continued with ['labels/<r>/']. *)
Theorem load_labels_from_s3_reads_labels_url (id r : pyval) (h : trace scalar) :
  urls_opened (snd (load_labels_from_s3 W id r h)) = [labels_url (str id) (str r)]
  /\ labels_url (str id) (str r)
     = "https://s3.embassy.ebi.ac.uk" +++
       "/idr/zarr/v0.1/" +++ str id +++ ".zarr/labels/" +++ str r +++ "/"
  /\ exists root,
       urls_opened (snd (load_binary_from_s3 W id r h)) = [root +++ str r +++ "/"]
       /\ labels_url (str id) (str r) = root +++ "labels/" +++ str r +++ "/".
Proof.
  split; [|split].
  - pose proof (load_labels_run id r h) as E. cbv zeta in E. rewrite E.
    destruct (from_zarr_ W _ _); reflexivity.
  - rewrite labels_url_eq. reflexivity.
  - exists (zarr_root_url (str id)). split; [|reflexivity].
    pose proof (load_binary_run id r h) as E. cbv zeta in E. rewrite E.
    destruct (from_zarr_ W _ _) as [s|e]; [|reflexivity].
    destruct (compute_ W _ _); reflexivity.
Qed.


(** ** Computations that handle no exception *)

Lemma propagates_In {A} (r : result A) (n : trace scalar) o e :
  propagates r n -> In (o, Some e) n -> r = Raise e.
Proof.
  destruct r as [a|e']; cbn.
  - intros Hn Hin. rewrite Forall_forall in Hn. now apply Hn in Hin.
  - intros (pre & o' & post & -> & Hpre & Hpost) Hin.
    rewrite Forall_forall in Hpre, Hpost.
    apply in_app_or in Hin. destruct Hin as [Hin|[Hin|Hin]].
    + now apply Hpre in Hin.
    + now injection Hin as _ ->.
    + apply Hpost in Hin. discriminate.
Qed.

Lemma no_handler_ret {A} (a : A) : no_handler (scalar := scalar) (ret a).
Proof. intros h. cbn. constructor. Qed.

Lemma no_handler_perform {A} (o : op scalar) (ans : trace scalar -> result A) :
  no_handler (perform o ans).
Proof.
  intros h. rewrite perform_run. destruct (ans h) as [a|e]; cbn.
  - repeat constructor.
  - exists [], o, []. repeat constructor.
Qed.

Lemma no_handler_bind {A B} (m : M scalar A) (k : A -> M scalar B) :
  no_handler m -> (forall a, no_handler (k a)) -> no_handler (bind m k).
Proof.
  intros Hm Hk h. specialize (Hm h). unfold bind.
  destruct (m h) as [[a|e] n1]; cbn in *; [|exact Hm].
  specialize (Hk a (h ++ n1)). destruct (k a (h ++ n1)) as [[b|e] n2]; cbn in *.
  - now apply Forall_app.
  - destruct Hk as (pre & o & post & -> & Hpre & Hpost).
    exists (n1 ++ pre), o, post. rewrite <- app_assoc.
    repeat split; auto. now apply Forall_app.
Qed.

Lemma no_handler_with_ProgressBar {A} (body : M scalar A) :
  no_handler body -> no_handler (with_ProgressBar body).
Proof.
  intros Hb h. unfold with_ProgressBar.
  specialize (Hb (h ++ [(op_ProgressBar_enter, None)])).
  destruct (body _) as [[a|e] n]; cbn in *.
  - constructor; [reflexivity|]. apply Forall_app. split; [assumption|].
    repeat constructor.
  - destruct Hb as (pre & o & post & -> & Hpre & Hpost).
    exists ((op_ProgressBar_enter, None) :: pre), o, (post ++ [(op_ProgressBar_exit, None)]).
    cbn. rewrite <- app_assoc. repeat split.
    + constructor; [reflexivity | assumption].
    + apply Forall_app. split; [assumption|]. repeat constructor.
Qed.

Lemma no_handler_predict_loop m planes acc :
  no_handler (predict_loop W m planes acc).
Proof.
  revert acc. induction planes as [|im rest IH]; intros acc; cbn [predict_loop].
  - apply no_handler_ret.
  - apply no_handler_bind; [apply no_handler_perform|]. intros a. apply IH.
Qed.

Ltac no_handler_steps :=
  repeat first
    [ apply no_handler_ret
    | apply no_handler_perform
    | apply no_handler_predict_loop
    | apply no_handler_with_ProgressBar
    | apply no_handler_bind; [|intro] ].

Lemma no_handler_load_binary id r : no_handler (load_binary_from_s3 W id r).
Proof. unfold load_binary_from_s3. unfold_calls. no_handler_steps. Qed.

Lemma no_handler_load_labels id r : no_handler (load_labels_from_s3 W id r).
Proof. unfold load_labels_from_s3. unfold_calls. no_handler_steps. Qed.

Lemma no_handler_notebook : no_handler (notebook W).
Proof.
  unfold notebook, cell_image_id, cell_load_binary, cell_load_labels,
    cell_load_model, cell_predict, cell_compare.
  apply no_handler_bind; [apply no_handler_ret | intro].
  apply no_handler_bind;
    [apply no_handler_bind; [apply no_handler_load_binary | intro] | intro].
  { unfold_calls. no_handler_steps. }
  apply no_handler_bind;
    [apply no_handler_bind; [apply no_handler_load_labels | intro] | intro].
  { unfold_calls. no_handler_steps. }
  unfold_calls. no_handler_steps.
  match goal with p : (_ * _ * _)%type |- _ => destruct p as [[? ?] ?] end.
  no_handler_steps.
Qed.


(** ** The callback *)

Ltac case_handler :=
  match goal with
  | |- context [if isinstance_Exception ?e then _ else _] =>
      destruct (isinstance_Exception e) eqn:?
  end.

Ltac run_all := repeat first [ step | case_handler; cbv beta iota ].

(** Find the entry at position [i] of an explicit log. *)
Ltac scan_log i Hn :=
  cbn [fst snd app] in Hn |- *;
  repeat (destruct i as [|i]; cbn [nth_error] in Hn;
          [ first [ discriminate Hn | injection Hn as <- <- ]
          | try discriminate Hn ]).

Lemma update_eq (g : globals scalar) (z : Z) :
  update W g z
  = bind (plt_figure W 10 10) (fun _ =>
    bind (plt_subplot W 121) (fun _ =>
    bind (getitem (data g) [0; 0; z]%Z 2) (fun plane =>
    bind (plt_imshow W plane "gray" None) (fun _ =>
    bind (try_except_Exception
            (bind (getitem (labels g) [0; 0; z]%Z 2) (fun curated =>
             plt_imshow W curated "jet" (Some (1 # 2)%Q)))
            (print (str (PyInt z))))
         (fun _ => update_after_try W g z))))).
Proof. reflexivity. Qed.


(** C10. In a call of [update], an exception raised by any operation
    other than the read of the curated label plane and its overlay (the
    operations 4 and 5: [labels[0, 0, z, :, :]] and its [imshow]) ends
    the call with that exception: the operation is the last one of the
    log.  This covers the two grayscale planes, the predicted overlay
    and the calls that set the figure up. *)
Theorem update_guards_only_curated_overlay (g : globals scalar) (z : Z)
    (h : trace scalar) (i : nat) (o : op scalar) (e : exn) :
  nth_error (snd (update W g z h)) i = Some (o, Some e) ->
  (i <> 4 -> i <> 5 ->
   fst (update W g z h) = Raise e /\ S i = List.length (snd (update W g z h)))
  /\ (i = 4 -> o = op_getitem (labels g) [0; 0; z]%Z 2)
  /\ (i = 5 -> exists curated,
         getitem_value (labels g) [0; 0; z]%Z 2 = Ok curated
         /\ o = op_imshow curated "jet" (Some (1 # 2)%Q)).
Proof.
  unfold update. unfold_calls. run_all.
  all: intros Hn; scan_log i Hn.
  all: repeat split; intros; try congruence; try lia; eauto.
Qed.

(** ** Shapes *)

Lemma skipn_tl {A} (n : nat) (l : list A) : skipn n (tl l) = skipn (S n) l.
Proof. destruct l; [now destruct n | reflexivity]. Qed.

Lemma skipn_S_tl {A} (n : nat) (l : list A) : skipn (S n) l = tl (skipn n l).
Proof.
  change (S n) with (1 + n). rewrite <- skipn_skipn. now destruct (skipn n l).
Qed.

Lemma wrap_index_nonneg (z : Z) (n : nat) :
  (0 <= z < Z.of_nat n)%Z -> wrap_index z n = Some (Z.to_nat z).
Proof.
  intros [H0 H1]. unfold wrap_index.
  apply Z.leb_le in H0. apply Z.ltb_lt in H1. now rewrite H0, H1.
Qed.

Lemma resolve_ints_shape (ints : list Z) (s : list nat) ks s' :
  resolve_ints ints s = Ok (ks, s') ->
  s' = skipn (List.length ints) s
  /\ List.length ks = List.length ints
  /\ List.length ints <= List.length s.
Proof.
  revert s ks s'. induction ints as [|i rest IH]; intros s ks s'; cbn.
  - intros [= <- <-]. cbn. repeat split. lia.
  - destruct s as [|n s0]; [discriminate|].
    destruct (wrap_index i n); [|discriminate].
    destruct (resolve_ints rest s0) as [[ks0 s0']|e] eqn:E; [|discriminate].
    intros [= <- <-]. apply IH in E. destruct E as (-> & Hl & Hle).
    cbn. repeat split; lia.
Qed.

Lemma resolve_index_shape (ints : list Z) (nfull : nat) (s : list nat) ks s' :
  resolve_index ints nfull s = Ok (ks, s') ->
  s' = skipn (List.length ints) s
  /\ List.length ks = List.length ints
  /\ List.length ints + nfull <= List.length s.
Proof.
  unfold resolve_index.
  destruct (List.length ints + nfull <=? List.length s) eqn:E; [|discriminate].
  apply Nat.leb_le in E. intros H. apply resolve_ints_shape in H.
  destruct H as (? & ? & ?). auto.
Qed.

Lemma subarray_shape (k : nat) (a : ndarray scalar) :
  shape (subarray k a) = tl (shape a).
Proof.
  unfold subarray. destruct (shape a) eqn:E; cbn; [now rewrite E | reflexivity].
Qed.

Lemma fold_subarray_shape (ks : list nat) (a : ndarray scalar) :
  shape (fold_left (fun acc k => subarray k acc) ks a)
  = skipn (List.length ks) (shape a).
Proof.
  revert a. induction ks as [|k ks IH]; intros a; cbn [fold_left List.length].
  - reflexivity.
  - rewrite IH, subarray_shape. apply skipn_tl.
Qed.

Lemma getitem_value_shape (x y : array_obj scalar) (ints : list Z) (nfull : nat) :
  getitem_value x ints nfull = Ok y ->
  shape_of y = skipn (List.length ints) (shape_of x)
  /\ List.length ints + nfull <= List.length (shape_of x).
Proof.
  destruct x as [d|a]; cbn [getitem_value shape_of].
  - unfold getitem_dask.
    destruct (resolve_index ints nfull (dask_shape d)) as [[ks s']|e] eqn:E;
      [|discriminate].
    intros [= <-]. apply resolve_index_shape in E. destruct E as (_ & Hl & Hle).
    split; [|assumption]. cbn [shape_of]. unfold dask_shape. cbn.
    now rewrite length_app, skipn_skipn, Hl, Nat.add_comm.
  - unfold getitem_ndarray.
    destruct (resolve_index ints nfull (shape a)) as [[ks s']|e] eqn:E;
      [|discriminate].
    intros [= <-]. apply resolve_index_shape in E. destruct E as (_ & Hl & Hle).
    split; [|assumption]. cbn [shape_of]. now rewrite fold_subarray_shape, Hl.
Qed.

Lemma getitem_value_Ok (x : array_obj scalar) (ints : list Z) (nfull : nat) p :
  resolve_index ints nfull (shape_of x) = Ok p ->
  exists y, getitem_value x ints nfull = Ok y.
Proof.
  destruct p as [ks s']. destruct x as [d|a]; cbn [getitem_value shape_of].
  - unfold getitem_dask. intros ->. eauto.
  - unfold getitem_ndarray. intros ->. eauto.
Qed.

Lemma getitem_value_resolved (x y : array_obj scalar) (ints : list Z) (nfull : nat) :
  getitem_value x ints nfull = Ok y ->
  exists p, resolve_index ints nfull (shape_of x) = Ok p.
Proof.
  destruct x as [d|a]; cbn [getitem_value shape_of].
  - unfold getitem_dask.
    destruct (resolve_index ints nfull (dask_shape d)) as [p|e]; [eauto|discriminate].
  - unfold getitem_ndarray.
    destruct (resolve_index ints nfull (shape a)) as [p|e]; [eauto|discriminate].
Qed.

(** [a[0, 0, :, :, :]] went through, so [a[0, 0, z, :, :]] does for
    every [z] below the third extent. *)
Lemma resolve_index_volume_plane (s : list nat) p (nz : nat) (z : Z) :
  resolve_index [0; 0]%Z 3 s = Ok p ->
  nth_error s 2 = Some nz ->
  (0 <= z < Z.of_nat nz)%Z ->
  exists q, resolve_index [0; 0; z]%Z 2 s = Ok q.
Proof.
  unfold resolve_index.
  destruct s as [|n0 [|n1 [|n2 rest]]]; try discriminate.
  cbn [List.length Nat.add Nat.leb resolve_ints nth_error].
  destruct (List.length rest) as [|[|m]] eqn:El; try discriminate.
  destruct (wrap_index 0 n0); [|discriminate].
  destruct (wrap_index 0 n1); [|discriminate].
  intros _ [= ->] Hz. rewrite (wrap_index_nonneg z nz Hz). eauto.
Qed.

Lemma resolve_index_stack_plane (n : nat) (rest : list nat) (z : Z) :
  (0 <= z < Z.of_nat n)%Z ->
  2 <= List.length rest ->
  exists q, resolve_index [z] 2 (n :: rest) = Ok q.
Proof.
  intros Hz Hl. unfold resolve_index.
  cbn [List.length Nat.add Nat.leb resolve_ints].
  destruct (List.length rest) as [|[|m]] eqn:El; try lia.
  rewrite (wrap_index_nonneg z n Hz). eauto.
Qed.

Lemma iter_value_planes (x : array_obj scalar) planes :
  iter_value x = Ok planes ->
  exists n s,
    shape_of x = n :: s
    /\ List.length planes = n
    /\ Forall (fun p => shape_of p = s) planes.
Proof.
  unfold iter_value. destruct (shape_of x) as [|n s] eqn:E; [discriminate|].
  intros [= <-]. exists n, s. split; [reflexivity|]. split.
  - now rewrite length_map, length_seq.
  - apply Forall_forall. intros p Hin. apply in_map_iff in Hin.
    destruct Hin as (k & <- & _). destruct x as [d|a]; cbn [shape_of] in *.
    + unfold dask_shape in *. cbn. rewrite length_app. cbn.
      now rewrite Nat.add_1_r, skipn_S_tl, E.
    + now rewrite subarray_shape, E.
Qed.

Lemma shape_eqb_eq (s1 s2 : list nat) : shape_eqb s1 s2 = true -> s1 = s2.
Proof. unfold shape_eqb. now destruct (list_eq_dec Nat.eq_dec s1 s2). Qed.

Lemma stack_shape (l : list (ndarray scalar)) (a : ndarray scalar) :
  stack l = Ok a ->
  data_of a = List.concat (map data_of l)
  /\ hd 0 (shape a) = List.length l
  /\ forall b rest, l = b :: rest ->
       shape a = List.length l :: shape b
       /\ Forall (fun c => shape c = shape b) l.
Proof.
  unfold stack. destruct l as [|b rest].
  - intros [= <-]. cbn. split; [reflexivity|]. split; [reflexivity|]. discriminate.
  - destruct (forallb _ _) eqn:E; [|discriminate]. intros [= <-].
    cbn [data_of shape hd]. split; [reflexivity|]. split; [reflexivity|].
    intros b' rest' [= <- <-]. split; [reflexivity|].
    apply Forall_forall. intros c Hc.
    rewrite forallb_forall in E. now apply shape_eqb_eq, E.
Qed.

Lemma concat_chunk {A} (ll : list (list A)) (m k : nat) (x : list A) :
  Forall (fun y => List.length y = m) ll ->
  nth_error ll k = Some x ->
  firstn m (skipn (k * m) (List.concat ll)) = x.
Proof.
  revert k. induction ll as [|y ll IH]; intros k Hall Hk.
  - now destruct k.
  - inversion Hall as [|? ? Hy Hall']; subst. destruct k as [|k]; cbn in Hk |- *.
    + injection Hk as <-. rewrite firstn_app, Nat.sub_diag, firstn_all. cbn.
      apply app_nil_r.
    + rewrite skipn_app, skipn_all2 by lia. cbn [app].
      replace (List.length y + k * List.length y - List.length y)
        with (k * List.length y) by lia.
      now apply IH.
Qed.

(** The plane [k] of a stack of well-formed arrays is the array [k]. *)
Lemma stack_plane (l : list (ndarray scalar)) (a lab : ndarray scalar) (k : nat) :
  stack l = Ok a ->
  Forall well_formed l ->
  nth_error l k = Some lab ->
  getitem_ndarray a [Z.of_nat k] 0 = Ok lab.
Proof.
  intros Hs Hwf Hk.
  assert (Hlt : k < List.length l) by (apply nth_error_Some; congruence).
  unfold stack in Hs. destruct l as [|b rest]; [now destruct k|].
  destruct (forallb _ _) eqn:E; [|discriminate]. injection Hs as <-.
  assert (Hsh : forall c, In c (b :: rest) -> shape c = shape b).
  { intros c Hc. rewrite forallb_forall in E. now apply shape_eqb_eq, E. }
  unfold getitem_ndarray, resolve_index. cbn [shape List.length Nat.add Nat.leb resolve_ints].
  rewrite wrap_index_nonneg by (cbn [List.length] in Hlt; lia).
  rewrite Nat2Z.id. cbn [fold_left]. unfold subarray. cbn [shape data_of].
  change (data_of b ++ List.concat (map data_of rest))
    with (List.concat (map data_of (b :: rest))).
  rewrite (concat_chunk (map data_of (b :: rest)) (size_of (shape b)) k (data_of lab)).
  - rewrite <- (Hsh lab) by (eapply nth_error_In; eassumption). now destruct lab.
  - apply Forall_forall. intros y Hy. apply in_map_iff in Hy.
    destruct Hy as (c & <- & Hc). rewrite Forall_forall in Hwf.
    rewrite <- (Hsh c Hc). now apply Hwf.
  - now rewrite nth_error_map, Hk.
Qed.

(** ** The cells, run to the end *)

Lemma predict_loop_Ok (m : option model) (planes : list (array_obj scalar))
    (acc : list (ndarray scalar)) (h : trace scalar) res n :
  predict_loop W m planes acc h = (Ok res, n) ->
  n = map (fun p => (op_predict_instances m p, None)) planes
  /\ exists labs,
       res = acc ++ labs
       /\ List.length labs = List.length planes
       /\ forall k p,
            nth_error planes k = Some p ->
            exists mdl lab det,
              m = Some mdl
              /\ predict_instances_ W (h ++ firstn k n) mdl p = Ok (lab, det)
              /\ nth_error labs k = Some lab.
Proof.
  revert acc h res n. induction planes as [|im rest IH]; intros acc h res n;
    cbn [predict_loop].
  - intros [= <- <-]. split; [reflexivity|]. exists []. rewrite app_nil_r.
    repeat split. intros [|k] p; discriminate.
  - unfold predict_instances. rewrite bind_perform.
    destruct m as [mdl|]; [|discriminate].
    destruct (predict_instances_ W h mdl im) as [[lab det]|e] eqn:E; [|discriminate].
    cbn [fst].
    match goal with
    | |- context [predict_loop _ ?m' ?ps ?ac ?hh] =>
        destruct (predict_loop W m' ps ac hh) as [r n'] eqn:E2
    end.
    intros [= -> <-]. apply IH in E2. destruct E2 as (-> & labs & -> & Hlen & Hk).
    split; [reflexivity|]. exists (lab :: labs).
    split; [now rewrite <- app_assoc|]. split; [cbn; lia|].
    intros [|k] p Hp; cbn in Hp.
    + injection Hp as <-. exists mdl, lab, det. cbn. rewrite app_nil_r. auto.
    + destruct (Hk k p Hp) as (mdl' & lab' & det' & Hm & Hans & Hnth).
      exists mdl', lab', det'. cbn [firstn map nth_error].
      rewrite <- app_assoc in Hans. auto.
Qed.

Lemma cell_predict_Ok (d : array_obj scalar) (m : option model) (h : trace scalar)
    im res ls n :
  cell_predict W d m h = (Ok (im, res, ls), n) ->
  exists x planes a,
    let before := [(op_getitem d [0; 0]%Z 3, None);
                   (op_normalize x 1%Q (499 # 5)%Q [0; 1], None);
                   (op_iter im, None)] in
    getitem_value d [0; 0]%Z 3 = Ok x
    /\ normalize_ W (h ++ firstn 1 before) x 1%Q (499 # 5)%Q [0; 1] = Ok im
    /\ iter_value im = Ok planes
    /\ predict_loop W m planes [] (h ++ before)
       = (Ok res, map (fun p => (op_predict_instances m p, None)) planes)
    /\ stack res = Ok a
    /\ ls = NdArray a
    /\ n = before ++ map (fun p => (op_predict_instances m p, None)) planes
              ++ [(op_numpy_array res, None)].
Proof.
  unfold cell_predict. unfold_calls. rewrite bind_perform.
  destruct (getitem_value d [0; 0]%Z 3) as [x|e] eqn:Ex; [|discriminate].
  rewrite bind_perform. cbv beta.
  destruct (normalize_ W _ x _ _ _) as [im'|e] eqn:En; [|discriminate].
  rewrite bind_perform.
  destruct (iter_value im') as [planes|e] eqn:Ei; [|discriminate].
  unfold bind at 1. rewrite <- !app_assoc. cbn [app].
  destruct (predict_loop W m planes [] _) as [[res'|e] n1] eqn:El; [|discriminate].
  rewrite bind_perform.
  destruct (stack res') as [a|e] eqn:Es; [|discriminate].
  unfold ret. intros [= <- <- <- <-].
  pose proof (predict_loop_Ok _ _ _ _ _ _ El) as (-> & _).
  exists x, planes, a. cbn [firstn app]. repeat split; auto.
Qed.

(** After a successful prediction cell, under the shape contracts of
    the two libraries, the predicted labels have the shape of
    [data[0, 0]] as soon as there is a plane. *)
Lemma cell_predict_shape (d : array_obj scalar) (m : option model) (h : trace scalar)
    im res ls n (nz : nat) (rest : list nat) :
  cell_predict W d m h = (Ok (im, res, ls), n) ->
  normalize_keeps_shape W ->
  predict_keeps_shape W ->
  skipn 2 (shape_of d) = nz :: rest ->
  0 < nz ->
  shape_of ls = nz :: rest.
Proof.
  intros Hrun Hnorm Hpred Hd Hnz.
  apply cell_predict_Ok in Hrun.
  destruct Hrun as (x & planes & a & Hx & Hn & Hi & Hl & Hs & -> & _).
  apply getitem_value_shape in Hx. destruct Hx as [Hx _]. cbn [List.length] in Hx.
  apply Hnorm in Hn. rewrite Hx, Hd in Hn.
  apply iter_value_planes in Hi. destruct Hi as (n0 & s0 & Him & Hlen & Hall).
  rewrite Hn in Him. injection Him as <- <-.
  apply predict_loop_Ok in Hl. destruct Hl as (_ & labs & -> & Hll & Hk).
  cbn [app] in Hs. apply stack_shape in Hs. destruct Hs as (_ & _ & Hs).
  destruct planes as [|p0 planes]; [cbn in Hlen; lia|].
  destruct labs as [|lab0 labs]; [discriminate|].
  destruct (Hs lab0 labs eq_refl) as [Hsa _]. cbn [shape_of]. rewrite Hsa.
  destruct (Hk 0 p0 eq_refl) as (mdl & lab & det & _ & Hans & Hnth).
  cbn in Hnth. injection Hnth as <-. apply Hpred in Hans. rewrite Hans.
  rewrite (Forall_inv Hall). cbn [List.length] in Hlen, Hll |- *. f_equal. lia.
Qed.

Lemma load_binary_Ok (id r : pyval) (h : trace scalar) v n :
  load_binary_from_s3 W id r h = (Ok v, n) ->
  exists s a,
    let url := image_url (str id) (str r) in
    let fmt := (op_percent_format "idr/zarr/v0.1/%s.zarr/%s/" [id; r], None) in
    let enter := (op_ProgressBar_enter, None) in
    from_zarr_ W (h ++ [fmt; enter]) url = Ok s
    /\ compute_ W (h ++ [fmt; enter; (op_from_zarr url, None)]) (mk_dask url s []) = Ok a
    /\ v = NdArray a
    /\ n = [fmt; enter; (op_from_zarr url, None);
            (op_asarray (DaskArray (mk_dask url s [])), None);
            (op_ProgressBar_exit, None)].
Proof.
  pose proof (load_binary_run id r h) as E. cbv zeta in E. rewrite E. clear E.
  destruct (from_zarr_ W _ _) as [s|e] eqn:Es; [|discriminate].
  destruct (compute_ W _ _) as [a|e] eqn:Ea; [|discriminate].
  intros [= <- <-]. exists s, a. cbv zeta. auto.
Qed.

Lemma load_labels_Ok (id r : pyval) (h : trace scalar) v n :
  load_labels_from_s3 W id r h = (Ok v, n) ->
  exists s,
    let url := labels_url (str id) (str r) in
    let fmt := (op_percent_format "idr/zarr/v0.1/%s.zarr/labels/%s/" [id; r], None) in
    from_zarr_ W (h ++ [fmt]) url = Ok s
    /\ v = DaskArray (mk_dask url s [])
    /\ n = [fmt; (op_from_zarr url, None)].
Proof.
  pose proof (load_labels_run id r h) as E. cbv zeta in E. rewrite E. clear E.
  destruct (from_zarr_ W _ _) as [s|e] eqn:Es; [|discriminate].
  intros [= <- <-]. exists s. cbv zeta. auto.
Qed.

Lemma cell_load_binary_Ok (id : pyval) (h : trace scalar) d n :
  cell_load_binary W id h = (Ok d, n) ->
  exists nb,
    load_binary_from_s3 W id default_resolution h = (Ok d, nb)
    /\ n = nb ++ [(op_print (str_tuple (shape_of d)), None)].
Proof.
  unfold cell_load_binary. intros H. apply bind_Ok_inv in H.
  destruct H as (d' & nb & n2 & Hb & H & ->).
  unfold print, evaluate in H. rewrite bind_perform in H. unfold ret in H.
  injection H as <- <-. eauto.
Qed.

Lemma cell_load_labels_Ok (id : pyval) (h : trace scalar) l n :
  cell_load_labels W id h = (Ok l, n) ->
  exists nl,
    load_labels_from_s3 W id default_resolution h = (Ok l, nl)
    /\ n = nl ++ [(op_print (str_tuple (shape_of l)), None)].
Proof.
  unfold cell_load_labels. intros H. apply bind_Ok_inv in H.
  destruct H as (l' & nl & n2 & Hb & H & ->).
  unfold print, evaluate in H. rewrite bind_perform in H. unfold ret in H.
  injection H as <- <-. eauto.
Qed.

Lemma cell_compare_Ok (d : array_obj scalar) (h : trace scalar) u n :
  cell_compare W d h = (Ok u, n) ->
  exists nz,
    tuple_item (shape_of d) 2 = Ok nz
    /\ n = [(op_tuple_item (shape_of d) 2, None); (op_interact (z_slider nz), None)].
Proof.
  unfold cell_compare. unfold_calls. rewrite bind_perform.
  destruct (tuple_item (shape_of d) 2) as [nz|e] eqn:E; [|discriminate].
  rewrite perform_run. destruct (interact_ W _ _); [|discriminate].
  intros [= <- <-]. eauto.
Qed.

Lemma notebook_Ok (h : trace scalar) (g : globals scalar) (n : trace scalar) :
  notebook W h = (Ok g, n) ->
  exists nb nl np nz,
    let id := PyInt 6001247 in
    let shown_data := (op_print (str_tuple (shape_of (data g))), None) in
    let shown_labels := (op_print (str_tuple (shape_of (labels g))), None) in
    let loaded := (op_from_pretrained "2D_demo", None) in
    image_id g = id
    /\ load_binary_from_s3 W id default_resolution h = (Ok (data g), nb)
    /\ load_labels_from_s3 W id default_resolution (h ++ nb ++ [shown_data])
       = (Ok (labels g), nl)
    /\ cell_predict W (data g) (model_versatile g)
         (h ++ nb ++ [shown_data] ++ nl ++ [shown_labels] ++ [loaded])
       = (Ok (img g, results g, label_slices g), np)
    /\ tuple_item (shape_of (data g)) 2 = Ok nz
    /\ n = nb ++ [shown_data] ++ nl ++ [shown_labels] ++ [loaded] ++ np
            ++ [(op_tuple_item (shape_of (data g)) 2, None);
                (op_interact (z_slider nz), None)].
Proof.
  unfold notebook, cell_image_id. rewrite bind_ret. intros H.
  apply bind_Ok_inv in H. destruct H as (d & n1 & n1' & Hd & H & ->).
  apply bind_Ok_inv in H. destruct H as (l & n2 & n2' & Hl & H & ->).
  apply bind_Ok_inv in H. destruct H as (m & n3 & n3' & Hm & H & ->).
  apply bind_Ok_inv in H. destruct H as ([[im res] ls] & n4 & n4' & Hp & H & ->).
  apply bind_Ok_inv in H. destruct H as (u & n5 & n5' & Hc & H & ->).
  unfold ret in H. injection H as <- <-.
  apply cell_load_binary_Ok in Hd. destruct Hd as (nb & Hb & ->).
  apply cell_load_labels_Ok in Hl. destruct Hl as (nl & Hl & ->).
  unfold cell_load_model, from_pretrained in Hm. apply perform_Ok_inv in Hm.
  destruct Hm as (_ & ->).
  apply cell_compare_Ok in Hc. destruct Hc as (nz & Hz & ->).
  exists nb, nl, n4, nz. cbn [image_id data labels model_versatile img results label_slices].
  rewrite <- !app_assoc in Hp. rewrite <- !app_assoc. rewrite app_nil_r.
  cbn [app] in *. repeat split; auto.
Qed.

Lemma predict_calls_map (m : option model) (planes : list (array_obj scalar)) :
  predict_calls (map (fun p => (op_predict_instances m p, None)) planes)
  = map (fun p => (m, p)) planes.
Proof.
  induction planes as [|p planes IH]; [reflexivity|].
  cbn. f_equal. apply IH.
Qed.

Lemma steps_predict_map (m : option model) (planes : list (array_obj scalar)) :
  steps (map (fun p => (op_predict_instances m p, None)) planes)
  = map Predict planes.
Proof.
  induction planes as [|p planes IH]; [reflexivity|].
  cbn. f_equal. apply IH.
Qed.

(** C5. When the prediction cell succeeds, [predict_instances] was
    called exactly once for each z-plane of the normalised image, in the
    order of the planes; [results] holds exactly the label images those
    calls returned, in that order; and [label_slices] is their stack:
    its buffer is the returned buffers one after the other, its first
    extent is the number of planes, and its plane [k] is the label image
    returned for plane [k]. *)
Theorem inference_one_call_per_plane (d : array_obj scalar) (m : option model)
    (h : trace scalar) (im : array_obj scalar) (res : list (ndarray scalar))
    (ls : array_obj scalar) (n : trace scalar) :
  cell_predict W d m h = (Ok (im, res, ls), n) ->
  exists x planes a,
    getitem_value d [0; 0]%Z 3 = Ok x
    /\ normalize_ W (h ++ firstn 1 n) x 1%Q (499 # 5)%Q [0; 1] = Ok im
    /\ iter_value im = Ok planes
    /\ predict_calls n = map (fun p => (m, p)) planes
    /\ List.length res = List.length planes
    /\ (forall k p,
          nth_error planes k = Some p ->
          exists mdl lab det,
            m = Some mdl
            /\ predict_instances_ W (h ++ firstn (3 + k) n) mdl p = Ok (lab, det)
            /\ nth_error res k = Some lab)
    /\ ls = NdArray a
    /\ stack res = Ok a
    /\ hd 0 (shape a) = List.length planes
    /\ data_of a = List.concat (map data_of res)
    /\ (Forall well_formed res ->
        forall k lab,
          nth_error res k = Some lab ->
          getitem_ndarray a [Z.of_nat k] 0 = Ok lab).
Proof.
  intros Hrun. apply cell_predict_Ok in Hrun.
  destruct Hrun as (x & planes & a & Hx & Hn & Hi & Hl & Hs & -> & ->).
  apply predict_loop_Ok in Hl. destruct Hl as (_ & labs & -> & Hlen & Hk).
  cbn [app] in *. exists x, planes, a.
  pose proof (stack_shape _ _ Hs) as (Hdata & Hhd & _).
  repeat split; auto.
  - cbn. rewrite flat_map_app. cbn. rewrite app_nil_r. apply predict_calls_map.
  - intros k p Hp. destruct (Hk k p Hp) as (mdl & lab & det & Hm & Hans & Hnth).
    exists mdl, lab, det. repeat split; auto.
    assert (Hlt : k < List.length planes) by (apply nth_error_Some; congruence).
    cbn [Nat.add firstn]. rewrite firstn_app, length_map.
    replace (k - List.length planes) with 0 by lia. cbn [firstn].
    rewrite app_nil_r. rewrite <- app_assoc in Hans. exact Hans.
  - congruence.
  - intros Hwf k lab Hlab. eapply stack_plane; eassumption.
Qed.


Lemma bind_bind {A B C} (m : M scalar A) (k : A -> M scalar B)
    (k' : B -> M scalar C) (h : trace scalar) :
  bind (bind m k) k' h = bind m (fun a => bind (k a) k') h.
Proof.
  unfold bind. destruct (m h) as [[a|e] n1]; [|reflexivity].
  destruct (k a (h ++ n1)) as [[b|e] n2]; [|reflexivity].
  rewrite app_assoc. destruct (k' b ((h ++ n1) ++ n2)) as [r n3].
  now rewrite app_assoc.
Qed.

Lemma steps_app (t1 t2 : trace scalar) : steps (t1 ++ t2) = steps t1 ++ steps t2.
Proof. apply flat_map_app. Qed.

Lemma steps_cons (en : entry scalar) (t : trace scalar) :
  steps (en :: t) = step_of (fst en) ++ steps t.
Proof. reflexivity. Qed.

Lemma steps_nil : steps (@nil (op scalar * option exn)) = [].
Proof. reflexivity. Qed.

(** The loop calls the model on an initial part of the planes, and on
    all of them when it comes to its end. *)
Lemma predict_loop_steps (m : option model) (planes : list (array_obj scalar))
    (acc : list (ndarray scalar)) (h : trace scalar) :
  exists k,
    steps (snd (predict_loop W m planes acc h)) = map Predict (firstn k planes)
    /\ (forall res, fst (predict_loop W m planes acc h) = Ok res ->
        firstn k planes = planes).
Proof.
  revert acc h. induction planes as [|im rest IH]; intros acc h; cbn [predict_loop].
  - exists 0. split; reflexivity.
  - unfold predict_instances. rewrite bind_perform.
    match goal with
    | |- context [match ?x with Ok _ => _ | Raise _ => _ end] =>
        destruct x as [[lab det]|e]
    end.
    + cbn [fst].
      match goal with
      | |- context [predict_loop _ ?m' ?ps ?ac ?hh] =>
          destruct (IH ac hh) as (k & Hs & Hk);
          destruct (predict_loop W m' ps ac hh) as [r n']
      end.
      exists (S k). cbn [fst snd] in *. split.
      * rewrite steps_cons, Hs. reflexivity.
      * intros res Hr. cbn. f_equal. eauto.
    + exists 1. split; [reflexivity|]. discriminate.
Qed.

Ltac walk :=
  first [ rewrite bind_bind | rewrite bind_perform | rewrite bind_ret
        | rewrite perform_run ];
  cbv beta; rewrite ?format_labels_root, ?format_image_root;
  try case_result; cbv beta iota.

Ltac show_steps :=
  unfold ret; cbv beta iota; cbn [snd]; unfold plan;
  repeat first [ rewrite steps_cons | rewrite steps_app | rewrite steps_nil ];
  cbn [app step_of fst map].

(** Whatever happens, the steps of a run are an initial part of the
    plan. *)
Lemma notebook_steps_prefix (h : trace scalar) :
  exists planes nz rest,
    plan (PyInt 6001247) planes nz = steps (snd (notebook W h)) ++ rest.
Proof.
  unfold notebook, cell_image_id, cell_load_binary, cell_load_labels,
    cell_load_model, cell_predict, cell_compare, load_labels_from_s3.
  unfold_calls.
  rewrite bind_ret, bind_bind. unfold bind at 1.
  pose proof (load_binary_run (PyInt 6001247) default_resolution h) as E.
  cbv zeta in E. rewrite E. clear E.
  do 2 (try case_result; cbv beta iota).
  2, 3: show_steps; exists [], 0; eexists; reflexivity.
  repeat walk.
  2, 3, 4, 5, 6: show_steps; exists [], 0; eexists; reflexivity.
  unfold bind at 1.
  match goal with
  | |- context [predict_loop _ ?m ?ps ?ac ?hh] =>
      destruct (predict_loop_steps m ps ac hh) as (k & Hs & Hk);
      destruct (predict_loop W m ps ac hh) as [[res|e] nloop]
  end; cbn [fst snd] in Hs, Hk; cbv beta iota.
  - rewrite (Hk res eq_refl) in Hs. repeat walk.
    1, 2: match goal with
          | Hi : iter_value _ = Ok ?ps, Hz : tuple_item _ _ = Ok ?nz |- _ =>
              exists ps, nz, []
          end; show_steps; rewrite Hs, app_nil_r; reflexivity.
    all: match goal with
         | Hi : iter_value _ = Ok ?ps |- _ => exists ps, 0, [Display (z_slider 0)]
         end; show_steps; rewrite Hs, app_nil_r; reflexivity.
  - match goal with
    | Hi : iter_value _ = Ok ?ps |- _ =>
        exists (firstn k ps), 0, [Display (z_slider 0)]
    end.
    show_steps. rewrite Hs. reflexivity.
Qed.

(** C8. The cells reach the services and the model in one order: the
    image is fetched once, from the URL of the configured identifier;
    the labels are fetched once, from theirs; the model ['2D_demo'] is
    loaded once; [predict_instances] is called on one plane after the
    other; the widget is shown once, at the end.  Every run does an
    initial part of this plan, and a run that succeeds does all of it. *)
Theorem notebook_steps_in_order (h : trace scalar) :
  (exists planes nz rest,
      plan (PyInt 6001247) planes nz = steps (snd (notebook W h)) ++ rest)
  /\ (forall g,
        fst (notebook W h) = Ok g ->
        exists planes nz,
          image_id g = PyInt 6001247
          /\ iter_value (img g) = Ok planes
          /\ tuple_item (shape_of (data g)) 2 = Ok nz
          /\ steps (snd (notebook W h)) = plan (image_id g) planes nz).
Proof.
  split; [apply notebook_steps_prefix|].
  intros g Hg.
  assert (Hrun : notebook W h = (Ok g, snd (notebook W h))).
  { destruct (notebook W h) as [r n]. cbn in Hg |- *. now rewrite Hg. }
  revert Hrun. generalize (snd (notebook W h)). intros n Hrun.
  apply notebook_Ok in Hrun.
  destruct Hrun as (nb & nl & np & nz & Hid & Hb & Hl & Hp & Hz & ->).
  apply load_binary_Ok in Hb. destruct Hb as (s & a & _ & _ & _ & ->).
  apply load_labels_Ok in Hl. destruct Hl as (sl & _ & _ & ->).
  apply cell_predict_Ok in Hp.
  destruct Hp as (x & planes & a' & _ & _ & Hi & _ & _ & _ & ->).
  exists planes, nz. rewrite Hid. repeat split; auto.
  pose proof (steps_predict_map (model_versatile g) planes) as Hsteps.
  show_steps. rewrite Hsteps. cbn [steps flat_map app]. now rewrite app_nil_r.
Qed.

(** C9. The slider handed to [interact] has minimum 0, maximum
    [data.shape[2] - 1] and step 1; and, [normalize] and
    [predict_instances] keeping shapes as they document, for every value
    [z] the slider can take both [data[0, 0, z, :, :]] and
    [label_slices[z, :, :]] are within bounds. *)
Theorem slider_values_index_in_bounds (h : trace scalar) (g : globals scalar)
    (n : trace scalar) :
  notebook W h = (Ok g, n) ->
  normalize_keeps_shape W ->
  predict_keeps_shape W ->
  exists nz slider before,
    tuple_item (shape_of (data g)) 2 = Ok nz
    /\ n = before ++ [(op_interact slider, None)]
    /\ slider_min slider = 0%Z
    /\ slider_max slider = (Z.of_nat nz - 1)%Z
    /\ slider_step slider = 1%Z
    /\ forall z,
         slider_admits slider z ->
         (exists plane, getitem_value (data g) [0; 0; z]%Z 2 = Ok plane)
         /\ (exists predicted, getitem_value (label_slices g) [z] 2 = Ok predicted).
Proof.
  intros Hrun Hnorm Hpred. apply notebook_Ok in Hrun.
  destruct Hrun as (nb & nl & np & nz & _ & _ & _ & Hp & Hz & ->).
  exists nz, (z_slider nz). eexists. split; [exact Hz|]. split.
  { rewrite !app_assoc.
    change [(op_tuple_item (shape_of (data g)) 2, None); (op_interact (z_slider nz), None)]
      with ([(op_tuple_item (shape_of (data g)) 2, @None exn)]
            ++ [(op_interact (scalar := scalar) (z_slider nz), @None exn)]).
    rewrite app_assoc. reflexivity. }
  split; [reflexivity|]. split; [reflexivity|]. split; [reflexivity|].
  intros z [[H0 H1] _]. cbn in H0, H1.
  pose proof (cell_predict_Ok _ _ _ _ _ _ _ Hp) as (x & _ & _ & Hx & _).
  unfold tuple_item in Hz.
  destruct (nth_error (shape_of (data g)) 2) as [nz'|] eqn:E; [|discriminate].
  injection Hz as ->. split.
  - apply getitem_value_resolved in Hx. destruct Hx as (p & Hx).
    destruct (resolve_index_volume_plane _ _ nz z Hx E) as (q & Hq); [lia|].
    eapply getitem_value_Ok; eassumption.
  - apply getitem_value_shape in Hx. destruct Hx as [_ Hlen].
    cbn [List.length] in Hlen.
    destruct (shape_of (data g)) as [|n0 [|n1 [|n2 rest]]] eqn:Es; try discriminate.
    cbn in E. injection E as ->.
    assert (Hls : shape_of (label_slices g) = nz :: rest).
    { eapply cell_predict_shape; eauto; [now rewrite Es | lia]. }
    destruct (resolve_index_stack_plane nz rest z) as (q & Hq);
      [lia | cbn [List.length] in Hlen; lia |].
    eapply getitem_value_Ok. rewrite Hls. eassumption.
Qed.

(** * More on the helpers, the cells and the callback *)

Lemma urls_opened_load_binary (id r : pyval) (h : trace scalar) :
  urls_opened (snd (load_binary_from_s3 W id r h)) = [image_url (str id) (str r)].
Proof.
  pose proof (load_binary_run id r h) as E. cbv zeta in E. rewrite E.
  destruct (from_zarr_ W _ _) as [s|e]; [|reflexivity].
  destruct (compute_ W _ _); reflexivity.
Qed.

Lemma urls_opened_load_labels (id r : pyval) (h : trace scalar) :
  urls_opened (snd (load_labels_from_s3 W id r h)) = [labels_url (str id) (str r)].
Proof.
  pose proof (load_labels_run id r h) as E. cbv zeta in E. rewrite E.
  destruct (from_zarr_ W _ _); reflexivity.
Qed.

(** X1. Whatever happens inside [load_binary_from_s3], the progress bar
    is entered once, right after the URL path is formatted, and left
    once, as the last operation: also when opening the store or
    computing the array raises. *)
Theorem load_binary_from_s3_leaves_progress_bar (id r : pyval) (h : trace scalar) :
  exists mid,
    snd (load_binary_from_s3 W id r h)
    = (op_percent_format "idr/zarr/v0.1/%s.zarr/%s/" [id; r], None)
      :: (op_ProgressBar_enter, None)
      :: mid ++ [(op_ProgressBar_exit, None)]
    /\ Forall (fun en => is_ProgressBar_op (fst en) = false) mid
    /\ mid <> [].
Proof.
  pose proof (load_binary_run id r h) as E. cbv zeta in E. rewrite E. clear E.
  destruct (from_zarr_ W _ _) as [s|e].
  - destruct (compute_ W _ _) as [a|e]; eexists [_; _]; cbn;
      (split; [reflexivity|]); split; [repeat constructor | discriminate
                                      | repeat constructor | discriminate].
  - eexists [_]. cbn. split; [reflexivity|]. split; [repeat constructor | discriminate].
Qed.

(** X2. The helpers see their arguments only as text: two identifiers
    with the same [str()] and two resolutions with the same [str()] (the
    integer 6001247 and the string ['6001247'], 0 and ['0']) make both
    helpers open the same URL. *)
Theorem fetch_helpers_read_arguments_as_text (id id' r r' : pyval)
    (h h' : trace scalar) :
  str id = str id' ->
  str r = str r' ->
  urls_opened (snd (load_binary_from_s3 W id r h))
  = urls_opened (snd (load_binary_from_s3 W id' r' h'))
  /\ urls_opened (snd (load_labels_from_s3 W id r h))
     = urls_opened (snd (load_labels_from_s3 W id' r' h')).
Proof.
  intros Hid Hr. rewrite !urls_opened_load_binary, !urls_opened_load_labels.
  now rewrite Hid, Hr.
Qed.

(** X3. The labels live under the image: asking [load_binary_from_s3]
    for the resolution ['labels/<r>'] opens exactly the URL that
    [load_labels_from_s3] opens for the resolution [r]. *)
Theorem load_binary_from_s3_reaches_labels (id r : pyval) (h h' : trace scalar) :
  urls_opened (snd (load_binary_from_s3 W id (PyStr ("labels/" +++ str r)) h))
  = urls_opened (snd (load_labels_from_s3 W id r h')).
Proof.
  rewrite urls_opened_load_binary, urls_opened_load_labels.
  unfold image_url, labels_url. cbn [str]. now rewrite !append_assoc.
Qed.

Lemma arrays_computed_app (t1 t2 : trace scalar) :
  arrays_computed (t1 ++ t2) = arrays_computed t1 ++ arrays_computed t2.
Proof. apply flat_map_app. Qed.

Lemma arrays_computed_cons (en : entry scalar) (t : trace scalar) :
  arrays_computed (en :: t)
  = match fst en with
    | op_asarray x => [x]
    | _ => []
    end ++ arrays_computed t.
Proof. reflexivity. Qed.

Lemma arrays_computed_predict_loop (m : option model)
    (planes : list (array_obj scalar)) (acc : list (ndarray scalar))
    (h : trace scalar) :
  arrays_computed (snd (predict_loop W m planes acc h)) = [].
Proof.
  revert acc h. induction planes as [|im rest IH]; intros acc h; cbn [predict_loop].
  - reflexivity.
  - unfold predict_instances. rewrite bind_perform.
    match goal with
    | |- context [match ?x with Ok _ => _ | Raise _ => _ end] =>
        destruct x as [[lab det]|e]
    end; [|reflexivity].
    cbn [fst].
    match goal with
    | |- context [predict_loop _ ?m' ?ps ?ac ?hh] =>
        specialize (IH ac hh); destruct (predict_loop W m' ps ac hh) as [r n']
    end.
    cbn [snd] in *. rewrite arrays_computed_cons. cbn [fst app]. exact IH.
Qed.

Ltac show_computed :=
  unfold ret; cbv beta iota; cbn [snd];
  repeat first [ rewrite arrays_computed_cons | rewrite arrays_computed_app ];
  cbn [app fst].


Lemma printed_predict_map (m : option model) (planes : list (array_obj scalar)) :
  printed (map (fun p => (op_predict_instances m p, None)) planes) = [].
Proof. induction planes as [|p planes IH]; [reflexivity | exact IH]. Qed.


Lemma wrap_index_zero (n : nat) :
  wrap_index 0 n = match n with 0 => None | S _ => Some 0 end.
Proof.
  destruct n as [|n]; [reflexivity|].
  unfold wrap_index. replace (0 <? Z.of_nat (S n))%Z with true; [reflexivity|].
  symmetry. apply Z.ltb_lt. lia.
Qed.

Lemma getitem_value_Raise (x : array_obj scalar) (ints : list Z) (nfull : nat) e :
  resolve_index ints nfull (shape_of x) = Raise e ->
  getitem_value x ints nfull = Raise e.
Proof.
  destruct x as [d|a]; cbn [getitem_value shape_of].
  - unfold getitem_dask. now intros ->.
  - unfold getitem_ndarray. now intros ->.
Qed.

(** What [a[0, 0, :, :, :]] asks of a shape. *)
Lemma resolve_index_volume (s : list nat) :
  (exists n0 n1 rest,
      s = S n0 :: S n1 :: rest /\ 3 <= List.length rest
      /\ resolve_index [0; 0]%Z 3 s = Ok ([0; 0], rest))
  \/ ((List.length s < 5 \/ nth_error s 0 = Some 0 \/ nth_error s 1 = Some 0)
      /\ resolve_index [0; 0]%Z 3 s = Raise IndexError).
Proof.
  destruct s as [|n0 [|n1 rest]];
    [right; split; [left; cbn; lia | reflexivity]
    |right; split; [left; cbn; lia | reflexivity]|].
  unfold resolve_index. cbn [List.length Nat.add Nat.leb resolve_ints].
  rewrite !wrap_index_zero.
  destruct (List.length rest) as [|[|[|l]]] eqn:El;
    try (right; split; [left; cbn; lia | now destruct n0, n1]).
  destruct n0 as [|n0]; [right; split; [cbn; auto | reflexivity]|].
  destruct n1 as [|n1]; [right; split; [cbn; auto | reflexivity]|].
  left. exists n0, n1, rest. repeat split. lia.
Qed.

(** X6. The prediction cell needs five axes.  On an array with fewer
    than five axes, or whose first or second extent is 0,
    [data[0, 0, :, :, :]] raises [IndexError] and the cell stops there:
    nothing is normalised and the model is not called.  On every other
    array the indexing succeeds and gives an array of the remaining
    axes. *)
Theorem cell_predict_needs_five_axes (d : array_obj scalar) (m : option model)
    (h : trace scalar) :
  ((List.length (shape_of d) < 5
    \/ nth_error (shape_of d) 0 = Some 0
    \/ nth_error (shape_of d) 1 = Some 0) ->
   cell_predict W d m h
   = (Raise IndexError, [(op_getitem d [0; 0]%Z 3, Some IndexError)]))
  /\ (5 <= List.length (shape_of d) ->
      nth_error (shape_of d) 0 <> Some 0 ->
      nth_error (shape_of d) 1 <> Some 0 ->
      exists x,
        getitem_value d [0; 0]%Z 3 = Ok x
        /\ shape_of x = skipn 2 (shape_of d)
        /\ hd_error (snd (cell_predict W d m h)) = Some (op_getitem d [0; 0]%Z 3, None)).
Proof.
  destruct (resolve_index_volume (shape_of d))
    as [(n0 & n1 & rest & Hs & Hlen & Hres) | [Hbad Hres]].
  - split.
    + rewrite Hs. cbn. intros [H | [H | H]]; [lia | discriminate | discriminate].
    + intros _ _ _. destruct (getitem_value_Ok d _ _ _ Hres) as (x & Hx).
      exists x. split; [exact Hx|]. split.
      * apply getitem_value_shape in Hx. apply Hx.
      * unfold cell_predict. unfold_calls. rewrite bind_perform, Hx.
        match goal with
        | |- context [let (r, n) := ?t in _] => destruct t as [r n]
        end. reflexivity.
  - split.
    + intros _. unfold cell_predict. unfold_calls.
      now rewrite bind_perform, (getitem_value_Raise _ _ _ _ Hres).
    + intros H5 H0 H1. destruct Hbad as [H | [H | H]]; [lia | congruence | congruence].
Qed.

(** X7. The loop stops at the first plane the model fails on.  When the
    loop raises, the model was called on the planes up to that one, in
    order, each once; the failing call is the last operation, the loop
    raises its exception, and no later plane reaches the model. *)
Theorem predict_loop_stops_at_first_failure (m : option model)
    (planes : list (array_obj scalar)) (acc : list (ndarray scalar))
    (h : trace scalar) (e : exn) (n : trace scalar) :
  predict_loop W m planes acc h = (Raise e, n) ->
  exists k p,
    nth_error planes k = Some p
    /\ n = map (fun q => (op_predict_instances m q, None)) (firstn k planes)
           ++ [(op_predict_instances m p, Some e)]
    /\ predict_calls n = map (fun q => (m, q)) (firstn (S k) planes)
    /\ match m with
       | Some mdl => predict_instances_ W (h ++ firstn k n) mdl p = Raise e
       | None => k = 0 /\ e = AttributeError
       end.
Proof.
  revert acc h n. induction planes as [|im rest IH]; intros acc h n;
    cbn [predict_loop]; [discriminate|].
  unfold predict_instances. rewrite bind_perform.
  destruct m as [mdl|].
  - destruct (predict_instances_ W h mdl im) as [[lab det]|e'] eqn:E.
    + cbn [fst].
      match goal with
      | |- context [predict_loop _ ?m' ?ps ?ac ?hh] =>
          specialize (IH ac hh); destruct (predict_loop W m' ps ac hh) as [r n']
      end.
      intros [= -> <-]. destruct (IH n' eq_refl) as (k & p & Hp & -> & Hcalls & Hans).
      exists (S k), p. split; [exact Hp|]. split; [reflexivity|]. split.
      * cbn [firstn map] in *. cbn. f_equal. exact Hcalls.
      * cbn [firstn map app]. rewrite <- app_assoc in Hans. exact Hans.
    + intros [= <- <-]. exists 0, im. cbn. rewrite app_nil_r. auto.
  - intros [= <- <-]. exists 0, im. cbn. auto.
Qed.


(** X9. [update] prints nothing unless the read of the curated plane or
    its overlay failed: a printed line is the index [z], there is at
    most one, and it comes right after operation 4 or 5 raised an
    exception that derives from [Exception]. *)
Theorem update_prints_only_after_failed_label_read (g : globals scalar) (z : Z)
    (h : trace scalar) (i : nat) (line : string) (r : option exn) :
  nth_error (snd (update W g z h)) i = Some (op_print line, r) ->
  line = str (PyInt z)
  /\ r = None
  /\ printed (snd (update W g z h)) = [str (PyInt z)]
  /\ (i = 5 \/ i = 6)
  /\ exists o e,
       nth_error (snd (update W g z h)) (i - 1) = Some (o, Some e)
       /\ isinstance_Exception e = true.
Proof.
  unfold update. unfold_calls. run_all.
  all: intros Hn; scan_log i Hn.
  all: repeat split; auto; cbn [Nat.sub nth_error]; eauto.
Qed.

Lemma resolve_ints_raises_IndexError (ints : list Z) (s : list nat) e :
  resolve_ints ints s = Raise e -> e = IndexError.
Proof.
  revert s. induction ints as [|i rest IH]; intros s; cbn; [discriminate|].
  destruct s as [|n s0]; [now intros [= <-]|].
  destruct (wrap_index i n); [|now intros [= <-]].
  destruct (resolve_ints rest s0) as [[ks s']|e'] eqn:E; [discriminate|].
  intros [= <-]. eapply IH. eassumption.
Qed.

Lemma getitem_value_raises_IndexError (x : array_obj scalar) (ints : list Z)
    (nfull : nat) e :
  getitem_value x ints nfull = Raise e -> e = IndexError.
Proof.
  assert (Hres : forall s, resolve_index ints nfull s = Raise e -> e = IndexError).
  { intros s. unfold resolve_index.
    destruct (List.length ints + nfull <=? List.length s).
    - apply resolve_ints_raises_IndexError.
    - now intros [= <-]. }
  destruct x as [d|a]; cbn [getitem_value].
  - unfold getitem_dask.
    destruct (resolve_index ints nfull (dask_shape d)) as [[ks s']|e'] eqn:E;
      [discriminate|]. intros [= <-]. eapply Hres. eassumption.
  - unfold getitem_ndarray.
    destruct (resolve_index ints nfull (shape a)) as [[ks s']|e'] eqn:E;
      [discriminate|]. intros [= <-]. eapply Hres. eassumption.
Qed.

Lemma getitem_value_NdArray (a : ndarray scalar) (ints : list Z) (nfull : nat) y :
  getitem_value (NdArray a) ints nfull = Ok y -> exists b, y = NdArray b.
Proof.
  cbn [getitem_value]. destruct (getitem_ndarray a ints nfull) as [b|e];
    [|discriminate]. intros [= <-]. eauto.
Qed.

(** After a successful run, under the shape contracts, the two numpy
    arrays that [update] indexes give numpy planes for every index of a
    z-plane. *)
Lemma planes_resolve (h : trace scalar) (g : globals scalar) (n : trace scalar)
    (nz : nat) (z : Z) :
  notebook W h = (Ok g, n) ->
  normalize_keeps_shape W ->
  predict_keeps_shape W ->
  tuple_item (shape_of (data g)) 2 = Ok nz ->
  (0 <= z < Z.of_nat nz)%Z ->
  (exists plane, getitem_value (data g) [0; 0; z]%Z 2 = Ok (NdArray plane))
  /\ (exists predicted, getitem_value (label_slices g) [z] 2 = Ok (NdArray predicted)).
Proof.
  intros Hrun Hnorm Hpred Hz Hrange. apply notebook_Ok in Hrun.
  destruct Hrun as (nb & nl & np & nz' & _ & Hb & _ & Hp & _ & _).
  apply load_binary_Ok in Hb. destruct Hb as (s & a & _ & _ & Hd & _).
  pose proof (cell_predict_Ok _ _ _ _ _ _ _ Hp) as (x & _ & a' & Hx & _ & _ & _ & _ & Hls & _).
  unfold tuple_item in Hz.
  destruct (nth_error (shape_of (data g)) 2) as [nz''|] eqn:E; [|discriminate].
  injection Hz as ->. split.
  - pose proof (getitem_value_resolved _ _ _ _ Hx) as (p & Hres).
    destruct (resolve_index_volume_plane _ _ nz z Hres E) as (q & Hq); [lia|].
    destruct (getitem_value_Ok _ _ _ _ Hq) as (y & Hy).
    rewrite Hd in Hy. destruct (getitem_value_NdArray _ _ _ _ Hy) as (b & ->).
    rewrite Hd. eauto.
  - apply getitem_value_shape in Hx. destruct Hx as [_ Hlen].
    cbn [List.length] in Hlen.
    destruct (shape_of (data g)) as [|n0 [|n1 [|n2 rest]]] eqn:Es; try discriminate.
    cbn in E. injection E as ->.
    assert (Hsh : shape_of (label_slices g) = nz :: rest).
    { eapply cell_predict_shape; eauto; [now rewrite Es | lia]. }
    destruct (resolve_index_stack_plane nz rest z) as (q & Hq);
      [lia | cbn [List.length] in Hlen; lia |].
    rewrite <- Hsh in Hq. destruct (getitem_value_Ok _ _ _ _ Hq) as (y & Hy).
    rewrite Hls in Hy. destruct (getitem_value_NdArray _ _ _ _ Hy) as (b & ->).
    rewrite Hls. eauto.
Qed.

(** X10. The viewer works on every plane, curated or not.  After a
    successful run of the cells, with libraries that keep shapes, a
    matplotlib that draws numpy arrays and a lazy read that fails only
    with exceptions deriving from [Exception], [update] returns for
    every value of the slider, whether the curated plane can be read or
    not. *)
Theorem update_returns_for_every_slider_value (h : trace scalar)
    (g : globals scalar) (n : trace scalar) (nz : nat) (z : Z) (h' : trace scalar) :
  notebook W h = (Ok g, n) ->
  normalize_keeps_shape W ->
  predict_keeps_shape W ->
  draws_numpy_arrays W ->
  imshow_raises_Exception_only W ->
  tuple_item (shape_of (data g)) 2 = Ok nz ->
  slider_admits (z_slider nz) z ->
  fst (update W g z h') = Ok tt.
Proof.
  intros Hrun Hnorm Hpred (Hfig & Hsub & Hshow & Htl & Hfl) Hexc Hz [[H0 H1] _].
  cbn in H0, H1.
  destruct (planes_resolve h g n nz z Hrun Hnorm Hpred Hz ltac:(lia))
    as [(plane & Hplane) (predicted & Hpredicted)].
  unfold update. unfold_calls. run_all.
  all: try discriminate Hplane; try discriminate Hpredicted.
  all: try (injection Hplane as ->); try (injection Hpredicted as ->).
  all: repeat match goal with
       | H : figure_ _ _ _ _ = Raise _ |- _ => rewrite Hfig in H; discriminate H
       | H : subplot_ _ _ _ = Raise _ |- _ => rewrite Hsub in H; discriminate H
       | H : tight_layout_ _ _ = Raise _ |- _ => rewrite Htl in H; discriminate H
       | H : flush_events_ _ _ = Raise _ |- _ => rewrite Hfl in H; discriminate H
       | H : imshow_ _ _ (NdArray _) _ _ = Raise _ |- _ =>
           rewrite Hshow in H by reflexivity; discriminate H
       end.
  all: try match goal with
       | H : imshow_ _ _ _ _ _ = Raise ?e, H' : isinstance_Exception ?e = false |- _ =>
           apply Hexc in H; congruence
       | H : getitem_value _ _ _ = Raise ?e, H' : isinstance_Exception ?e = false |- _ =>
           apply getitem_value_raises_IndexError in H; subst; discriminate H'
       end.
  all: cbn [fst]; match goal with |- Ok ?u = Ok tt => now destruct u end.
Qed.

(** X11. The slider reaches every z-plane and nothing else: after a
    successful run, the slider handed to [interact] admits exactly the
    integers from 0 to [data.shape[2] - 1]. *)
Theorem slider_reaches_every_plane (h : trace scalar) (g : globals scalar)
    (n : trace scalar) :
  notebook W h = (Ok g, n) ->
  exists nz,
    nth_error (shape_of (data g)) 2 = Some nz
    /\ In (op_interact (z_slider nz), None) n
    /\ (forall s r, In (op_interact s, r) n -> s = z_slider nz)
    /\ forall z, slider_admits (z_slider nz) z <-> (0 <= z < Z.of_nat nz)%Z.
Proof.
  intros Hrun. apply notebook_Ok in Hrun.
  destruct Hrun as (nb & nl & np & nz & _ & Hb & Hl & Hp & Hz & ->).
  apply load_binary_Ok in Hb. destruct Hb as (s & a & _ & _ & _ & ->).
  apply load_labels_Ok in Hl. destruct Hl as (sl & _ & _ & ->).
  apply cell_predict_Ok in Hp.
  destruct Hp as (x & planes & a' & _ & _ & _ & _ & _ & _ & ->).
  exists nz. split; [|split; [|split]].
  - unfold tuple_item in Hz.
    destruct (nth_error (shape_of (data g)) 2) as [k|]; [|discriminate].
    injection Hz as ->. reflexivity.
  - cbn [app In]. rewrite !in_app_iff. cbn [In].
    repeat first [ left; reflexivity | right ].
  - intros s0 r. cbn [app In]. rewrite !in_app_iff. cbn [In].
    intros Hin.
    repeat match goal with
           | H : _ \/ _ |- _ => destruct H as [H|H]
           | H : (_, _) = (_, _) |- _ => first [discriminate H | injection H as <- <-]
           | H : In _ (map _ _) |- _ =>
               apply in_map_iff in H; destruct H as (? & H & _); discriminate H
           | H : False |- _ => destruct H
           end; reflexivity.
  - intros z. unfold slider_admits. cbn. rewrite Z.sub_0_r, Z.mod_1_r.
    split; [intros [Hr _]; lia | intros Hr; split; [lia | reflexivity]].
Qed.

Lemma getitem_ndarray_more_slices (a y : ndarray scalar) (ints : list Z) (nfull : nat) :
  getitem_ndarray a ints 0 = Ok y ->
  List.length ints + nfull <= List.length (shape a) ->
  getitem_ndarray a ints nfull = Ok y.
Proof.
  unfold getitem_ndarray, resolve_index. intros Hy Hlen.
  apply Nat.leb_le in Hlen. rewrite Hlen.
  destruct (List.length ints + 0 <=? List.length (shape a)); [exact Hy | discriminate].
Qed.

(** X12. The right panel shows the prediction for the plane the slider
    is on.  After a successful run, for label images that are
    well-formed and have at least two axes, [label_slices[k, :, :]] is the
    very label image that [predict_instances] returned for plane [k] of
    the normalised image. *)
Theorem predicted_overlay_is_the_label_image_of_the_plane (h : trace scalar)
    (g : globals scalar) (n : trace scalar) (k : nat) (lab : ndarray scalar) :
  notebook W h = (Ok g, n) ->
  Forall well_formed (results g) ->
  nth_error (results g) k = Some lab ->
  2 <= List.length (shape lab) ->
  getitem_value (label_slices g) [Z.of_nat k] 2 = Ok (NdArray lab)
  /\ exists planes p hk mdl det,
       iter_value (img g) = Ok planes
       /\ nth_error planes k = Some p
       /\ model_versatile g = Some mdl
       /\ predict_instances_ W hk mdl p = Ok (lab, det).
Proof.
  intros Hrun Hwf Hk Hdim. apply notebook_Ok in Hrun.
  destruct Hrun as (nb & nl & np & nz & _ & _ & _ & Hp & _ & _).
  apply cell_predict_Ok in Hp.
  destruct Hp as (x & planes & a & _ & _ & Hi & Hl & Hs & Hls & _).
  split.
  - rewrite Hls. cbn [getitem_value].
    rewrite (getitem_ndarray_more_slices a lab [Z.of_nat k] 2);
      [reflexivity | eapply stack_plane; eassumption |].
    apply stack_shape in Hs. destruct Hs as (_ & _ & Hs).
    destruct (results g) as [|b rest] eqn:Er; [now destruct k|].
    destruct (Hs b rest eq_refl) as [Hsa Hall]. rewrite Hsa.
    rewrite Forall_forall in Hall.
    rewrite <- (Hall lab) by (eapply nth_error_In; eassumption).
    cbn [List.length]. lia.
  - apply predict_loop_Ok in Hl. destruct Hl as (_ & labs & Hres & Hlen & Hcalls).
    cbn [app] in Hres. subst labs.
    assert (Hlt : k < List.length planes).
    { rewrite <- Hlen. apply nth_error_Some. congruence. }
    destruct (nth_error planes k) as [p|] eqn:Ep;
      [|apply nth_error_None in Ep; lia].
    destruct (Hcalls k p Ep) as (mdl & lab' & det & Hm & Hans & Hnth).
    rewrite Hk in Hnth. injection Hnth as <-.
    exists planes, p. eexists. exists mdl, det. repeat split; eauto.
Qed.

End Properties.

(** * The notebook in the small worlds *)

Example image_url_6001247 :
  image_url "6001247" "0"
  = "https://s3.embassy.ebi.ac.uk/idr/zarr/v0.1/6001247.zarr/0/"%string.
Proof. reflexivity. Qed.

Example labels_url_6001247 :
  labels_url "6001247" "0"
  = "https://s3.embassy.ebi.ac.uk/idr/zarr/v0.1/6001247.zarr/labels/0/"%string.
Proof. reflexivity. Qed.

Example notebook_aligned : fst (notebook Demo.aligned []) = Ok Demo.the_globals.
Proof. vm_compute. reflexivity. Qed.

Lemma demo_normalize_keeps_shape image_shape labels_shape show :
  normalize_keeps_shape (Demo.demo image_shape labels_shape show).
Proof. intros h x pmin pmax axis y [= <-]. reflexivity. Qed.

Lemma demo_predict_keeps_shape image_shape labels_shape show :
  predict_keeps_shape (Demo.demo image_shape labels_shape show).
Proof. intros h m im lab d [= <- _]. reflexivity. Qed.






Lemma update_guards_only_curated_overlay_witness :
  nth_error (snd (update Demo.overlay_broken Demo.the_globals 1 [])) 10
  = Some (op_imshow (NdArray (Demo.full [2; 3] 14)) "jet" (Some (1 # 2)%Q),
          Some ValueError)
  /\ fst (update Demo.overlay_broken Demo.the_globals 1 []) = Raise ValueError
  /\ List.length (snd (update Demo.overlay_broken Demo.the_globals 1 [])) = 11.
Proof.
  assert (Hn : nth_error (snd (update Demo.overlay_broken Demo.the_globals 1 [])) 10
               = Some (op_imshow (NdArray (Demo.full [2; 3] 14)) "jet"
                         (Some (1 # 2)%Q), Some ValueError))
    by (vm_compute; reflexivity).
  split; [assumption|].
  destruct (update_guards_only_curated_overlay Z unit Demo.overlay_broken
              Demo.the_globals 1 [] 10 _ _ Hn) as [Hout _].
  destruct Hout as [Hr Hlen]; [discriminate | discriminate |].
  split; [exact Hr | symmetry; exact Hlen].
Defined.

(** The handler is real: with an unreadable curated plane, [update]
    returns although an operation raised. *)
Example update_handles_unreadable_plane :
  ~ propagates (fst (update Demo.plane_absent Demo.the_globals 1 []))
      (snd (update Demo.plane_absent Demo.the_globals 1 [])).
Proof.
  intros H.
  assert (Hr : fst (update Demo.plane_absent Demo.the_globals 1 []) = Ok tt)
    by (vm_compute; reflexivity).
  rewrite Hr in H. cbn [propagates] in H. rewrite Forall_forall in H.
  specialize (H (op_imshow (Demo.curated_plane 1) "jet" (Some (1 # 2)%Q), Some KeyError)).
  assert (Hin : In (op_imshow (Demo.curated_plane 1) "jet" (Some (1 # 2)%Q), Some KeyError)
                  (snd (update Demo.plane_absent Demo.the_globals 1 []))).
  { eapply nth_error_In with (n := 5). vm_compute. reflexivity. }
  apply H in Hin. discriminate Hin.
Qed.

Lemma inference_one_call_per_plane_witness :
  cell_predict Demo.aligned Demo.the_data Demo.the_model []
  = (Ok (Demo.the_img, [Demo.full [2; 3] 3; Demo.full [2; 3] 4],
         NdArray (mk_ndarray [2; 2; 3] (repeat 3%Z 6 ++ repeat 4%Z 6))),
     snd (cell_predict Demo.aligned Demo.the_data Demo.the_model []))
  /\ predict_calls (snd (cell_predict Demo.aligned Demo.the_data Demo.the_model []))
     = [(Demo.the_model, NdArray (Demo.full [2; 3] 7));
        (Demo.the_model, NdArray (Demo.full [2; 3] 7))]
  /\ getitem_ndarray (mk_ndarray [2; 2; 3] (repeat 3%Z 6 ++ repeat 4%Z 6)) [1%Z] 0
     = Ok (Demo.full [2; 3] 4).
Proof.
  assert (Hrun : cell_predict Demo.aligned Demo.the_data Demo.the_model []
                 = (Ok (Demo.the_img, [Demo.full [2; 3] 3; Demo.full [2; 3] 4],
                        NdArray (mk_ndarray [2; 2; 3] (repeat 3%Z 6 ++ repeat 4%Z 6))),
                    snd (cell_predict Demo.aligned Demo.the_data Demo.the_model [])))
    by (vm_compute; reflexivity).
  split; [assumption|].
  destruct (inference_one_call_per_plane Z unit Demo.aligned _ _ _ _ _ _ _ Hrun)
    as (x & planes & a & _ & _ & Hi & Hcalls & _ & _ & Ha & _ & _ & _ & Hplane).
  injection Ha as <-.
  assert (Hp : planes = [NdArray (Demo.full [2; 3] 7); NdArray (Demo.full [2; 3] 7)]).
  { vm_compute in Hi. injection Hi as <-. reflexivity. }
  subst planes. split; [exact Hcalls|].
  apply (Hplane ltac:(repeat constructor) 1). reflexivity.
Defined.


(** Without any z-plane the predicted label array is the empty
    one-dimensional array, which has no y and x extents. *)
Example predicted_labels_of_empty_volume :
  exists g, fst (notebook Demo.no_planes []) = Ok g
            /\ shape_of (data g) = [1; 2; 0; 2; 3]
            /\ shape_of (label_slices g) = [0].
Proof.
  eexists. split; [vm_compute; reflexivity|]. split; reflexivity.
Qed.


Lemma notebook_steps_in_order_witness :
  fst (notebook Demo.aligned []) = Ok Demo.the_globals
  /\ steps (snd (notebook Demo.aligned []))
     = [Fetch (image_url "6001247" "0");
        Fetch (labels_url "6001247" "0");
        Load_model "2D_demo";
        Predict (NdArray (Demo.full [2; 3] 7));
        Predict (NdArray (Demo.full [2; 3] 7));
        Display (z_slider 2)].
Proof.
  assert (Hrun : fst (notebook Demo.aligned []) = Ok Demo.the_globals)
    by (vm_compute; reflexivity).
  split; [assumption|].
  destruct (notebook_steps_in_order Z unit Demo.aligned []) as [_ Hall].
  destruct (Hall Demo.the_globals Hrun) as (planes & nz & _ & Hi & Hz & Hsteps).
  vm_compute in Hi. injection Hi as <-.
  vm_compute in Hz. injection Hz as <-.
  exact Hsteps.
Defined.

Lemma slider_values_index_in_bounds_witness :
  (notebook Demo.aligned [] = (Ok Demo.the_globals, snd (notebook Demo.aligned []))
   /\ normalize_keeps_shape Demo.aligned
   /\ predict_keeps_shape Demo.aligned)
  /\ exists nz slider,
       tuple_item (shape_of (data Demo.the_globals)) 2 = Ok nz
       /\ slider_max slider = (Z.of_nat nz - 1)%Z
       /\ (slider_admits slider 1 ->
           (exists plane, getitem_value (data Demo.the_globals) [0; 0; 1]%Z 2 = Ok plane)
           /\ (exists predicted,
                 getitem_value (label_slices Demo.the_globals) [1%Z] 2 = Ok predicted)).
Proof.
  assert (Hrun : notebook Demo.aligned []
                 = (Ok Demo.the_globals, snd (notebook Demo.aligned [])))
    by (vm_compute; reflexivity).
  assert (Hnorm : normalize_keeps_shape Demo.aligned)
    by apply demo_normalize_keeps_shape.
  assert (Hpred : predict_keeps_shape Demo.aligned)
    by apply demo_predict_keeps_shape.
  split; [repeat split; assumption|].
  destruct (slider_values_index_in_bounds Z unit Demo.aligned [] Demo.the_globals _
              Hrun Hnorm Hpred)
    as (nz & slider & before & Hz & _ & _ & Hmax & _ & Hall).
  exists nz, slider. split; [exact Hz|]. split; [exact Hmax|]. exact (Hall 1%Z).
Defined.

Example slider_of_aligned_admits_both_planes :
  slider_admits (z_slider 2) 0 /\ slider_admits (z_slider 2) 1
  /\ ~ slider_admits (z_slider 2) 2.
Proof.
  unfold slider_admits. cbn. repeat split; lia.
Qed.

(** * The further properties in the small worlds *)

Example recorded_shapes_as_printed :
  str_tuple [1; 2; 257; 210; 253] = "(1, 2, 257, 210, 253)"%string
  /\ str_tuple [1; 1; 257; 210; 253] = "(1, 1, 257, 210, 253)"%string
  /\ slider_max (z_slider 257) = 256%Z.
Proof. repeat split; vm_compute; reflexivity. Qed.

Lemma fetch_helpers_read_arguments_as_text_witness :
  (str (PyInt 6001247) = str (PyStr "6001247") /\ str (PyInt 0) = str (PyStr "0"))
  /\ urls_opened (snd (load_binary_from_s3 Demo.aligned (PyInt 6001247) (PyInt 0) []))
     = urls_opened (snd (load_binary_from_s3 Demo.offline (PyStr "6001247") (PyStr "0") [])).
Proof.
  assert (Hid : str (PyInt 6001247) = str (PyStr "6001247")) by (vm_compute; reflexivity).
  assert (Hr : str (PyInt 0) = str (PyStr "0")) by (vm_compute; reflexivity).
  split; [split; assumption|].
  rewrite (urls_opened_load_binary Z unit Demo.offline).
  destruct (fetch_helpers_read_arguments_as_text Z unit Demo.aligned
              (PyInt 6001247) (PyStr "6001247") (PyInt 0) (PyStr "0") [] [] Hid Hr)
    as [Hb _].
  rewrite Hb. rewrite (urls_opened_load_binary Z unit Demo.aligned). reflexivity.
Defined.


Lemma cell_predict_needs_five_axes_witness :
  (List.length (shape_of (NdArray (Demo.full [2; 3] 7))) < 5
   /\ cell_predict Demo.aligned (NdArray (Demo.full [2; 3] 7)) Demo.the_model []
      = (Raise IndexError,
         [(op_getitem (NdArray (Demo.full [2; 3] 7)) [0; 0]%Z 3, Some IndexError)]))
  /\ (5 <= List.length (shape_of Demo.the_data)
      /\ exists x, getitem_value Demo.the_data [0; 0]%Z 3 = Ok x
                   /\ shape_of x = [2; 2; 3]).
Proof.
  assert (H2 : List.length (shape_of (NdArray (Demo.full [2; 3] 7))) < 5)
    by (vm_compute; lia).
  assert (H5 : 5 <= List.length (shape_of Demo.the_data)) by (vm_compute; lia).
  split.
  - split; [assumption|].
    apply (cell_predict_needs_five_axes Z unit Demo.aligned). left. assumption.
  - split; [assumption|].
    destruct (cell_predict_needs_five_axes Z unit Demo.aligned Demo.the_data
                Demo.the_model []) as [_ Hok].
    destruct (Hok H5 ltac:(vm_compute; discriminate) ltac:(vm_compute; discriminate))
      as (x & Hx & Hs & _).
    exists x. split; assumption.
Defined.

Lemma predict_loop_stops_at_first_failure_witness :
  predict_loop Demo.second_plane_fails Demo.the_model
    [NdArray (Demo.full [2; 3] 1); NdArray (Demo.full [2; 3] 2);
     NdArray (Demo.full [2; 3] 3)] [] []
  = (Raise MemoryError,
     [(op_predict_instances Demo.the_model (NdArray (Demo.full [2; 3] 1)), None);
      (op_predict_instances Demo.the_model (NdArray (Demo.full [2; 3] 2)),
       Some MemoryError)])
  /\ exists k,
       nth_error [NdArray (Demo.full [2; 3] 1); NdArray (Demo.full [2; 3] 2);
                  NdArray (Demo.full [2; 3] 3)] k
       = Some (NdArray (Demo.full [2; 3] 2))
       /\ k = 1.
Proof.
  assert (Hrun : predict_loop Demo.second_plane_fails Demo.the_model
                   [NdArray (Demo.full [2; 3] 1); NdArray (Demo.full [2; 3] 2);
                    NdArray (Demo.full [2; 3] 3)] [] []
                 = (Raise MemoryError,
                    [(op_predict_instances Demo.the_model (NdArray (Demo.full [2; 3] 1)),
                      None);
                     (op_predict_instances Demo.the_model (NdArray (Demo.full [2; 3] 2)),
                      Some MemoryError)]))
    by (vm_compute; reflexivity).
  split; [assumption|].
  destruct (predict_loop_stops_at_first_failure Z unit Demo.second_plane_fails
              _ _ _ _ _ _ Hrun) as (k & p & Hp & Hn & _ & _).
  exists k.
  assert (Hk : k = 1).
  { apply (f_equal (@List.length _)) in Hn. rewrite length_app, length_map in Hn.
    cbn [List.length] in Hn.
    destruct k as [|[|[|k]]]; cbn in Hn; lia. }
  subst k. split; reflexivity.
Defined.

Lemma update_prints_only_after_failed_label_read_witness :
  nth_error (snd (update Demo.plane_absent Demo.the_globals 1 [])) 6
  = Some (op_print "1", None)
  /\ printed (snd (update Demo.plane_absent Demo.the_globals 1 [])) = ["1"%string]
  /\ printed (snd (update Demo.aligned Demo.the_globals 1 [])) = [].
Proof.
  assert (Hn : nth_error (snd (update Demo.plane_absent Demo.the_globals 1 [])) 6
               = Some (op_print "1", None))
    by (vm_compute; reflexivity).
  split; [assumption|].
  destruct (update_prints_only_after_failed_label_read Z unit Demo.plane_absent
              Demo.the_globals 1 [] 6 _ _ Hn) as (_ & _ & Hp & _).
  split; [rewrite Hp; vm_compute; reflexivity | vm_compute; reflexivity].
Defined.

Lemma lazy_read_fails_draws_numpy_arrays image_shape labels_shape e :
  draws_numpy_arrays (Demo.demo image_shape labels_shape (Demo.lazy_read_fails e)).
Proof.
  repeat split. intros h x cmap alpha Hx. cbn. unfold Demo.lazy_read_fails.
  now rewrite Hx.
Qed.

Lemma lazy_read_fails_with_Exception image_shape labels_shape e :
  isinstance_Exception e = true ->
  imshow_raises_Exception_only (Demo.demo image_shape labels_shape (Demo.lazy_read_fails e)).
Proof.
  intros He h x cmap alpha e'. cbn. unfold Demo.lazy_read_fails.
  destruct (is_lazy x); [intros [= <-]; exact He | discriminate].
Qed.

Lemma update_returns_for_every_slider_value_witness :
  (notebook Demo.plane_absent [] = (Ok Demo.the_globals, snd (notebook Demo.plane_absent []))
   /\ tuple_item (shape_of (data Demo.the_globals)) 2 = Ok 2
   /\ slider_admits (z_slider 2) 1)
  /\ fst (update Demo.plane_absent Demo.the_globals 1 []) = Ok tt.
Proof.
  assert (Hrun : notebook Demo.plane_absent []
                 = (Ok Demo.the_globals, snd (notebook Demo.plane_absent [])))
    by (vm_compute; reflexivity).
  assert (Hz : tuple_item (shape_of (data Demo.the_globals)) 2 = Ok 2) by reflexivity.
  assert (Hs : slider_admits (z_slider 2) 1)
    by (unfold slider_admits; cbn; split; [lia | reflexivity]).
  split; [repeat split; try assumption; apply Hs|].
  apply (update_returns_for_every_slider_value Z unit Demo.plane_absent []
           Demo.the_globals _ 2 1 [] Hrun).
  - apply demo_normalize_keeps_shape.
  - apply demo_predict_keeps_shape.
  - apply lazy_read_fails_draws_numpy_arrays.
  - apply lazy_read_fails_with_Exception. reflexivity.
  - exact Hz.
  - exact Hs.
Defined.

Lemma slider_reaches_every_plane_witness :
  notebook Demo.aligned [] = (Ok Demo.the_globals, snd (notebook Demo.aligned []))
  /\ exists nz,
       nth_error (shape_of (data Demo.the_globals)) 2 = Some nz
       /\ (slider_admits (z_slider nz) 1 <-> (0 <= 1 < Z.of_nat nz)%Z).
Proof.
  assert (Hrun : notebook Demo.aligned []
                 = (Ok Demo.the_globals, snd (notebook Demo.aligned [])))
    by (vm_compute; reflexivity).
  split; [assumption|].
  destruct (slider_reaches_every_plane Z unit Demo.aligned [] Demo.the_globals _ Hrun)
    as (nz & Hnz & _ & _ & Hall).
  exists nz. split; [exact Hnz | apply Hall].
Defined.

Lemma predicted_overlay_is_the_label_image_of_the_plane_witness :
  (notebook Demo.aligned [] = (Ok Demo.the_globals, snd (notebook Demo.aligned []))
   /\ Forall well_formed (results Demo.the_globals)
   /\ nth_error (results Demo.the_globals) 1 = Some (Demo.full [2; 3] 14)
   /\ 2 <= List.length (shape (Demo.full [2; 3] 14)))
  /\ getitem_value (label_slices Demo.the_globals) [1%Z] 2
     = Ok (NdArray (Demo.full [2; 3] 14)).
Proof.
  assert (Hrun : notebook Demo.aligned []
                 = (Ok Demo.the_globals, snd (notebook Demo.aligned [])))
    by (vm_compute; reflexivity).
  assert (Hwf : Forall well_formed (results Demo.the_globals))
    by (repeat constructor).
  assert (Hk : nth_error (results Demo.the_globals) 1 = Some (Demo.full [2; 3] 14))
    by reflexivity.
  assert (Hdim : 2 <= List.length (shape (Demo.full [2; 3] 14))) by (cbn; lia).
  split; [repeat split; assumption|].
  apply (predicted_overlay_is_the_label_image_of_the_plane Z unit Demo.aligned []
           Demo.the_globals _ 1 _ Hrun Hwf Hk Hdim).
Defined.
